(** * Resource discovery and aggregation of monolithe ([monolithe/lib/parsers.py])

    A shallow embedding of the Swagger parsers: the two transports
    ([SwaggerURLParser], [SwaggerFileParser]), the driver [grab_all] and the
    per-resource task [_grab_resource] with its Metadata split.

    Conventions.
    - JSON values are an inductive type; a Python [dict] coming out of the
      JSON parser is an association list read by first match and written in
      place (or appended when the key is new).
    - Python text is a [string] of bytes; the substring test, [split] and
      [rsplit] on UTF-8 text agree with their byte-level versions.
    - Exceptions are values of [exn]; fallible pure code returns [result],
      code that talks to the network or the disk runs in the monad [M] over
      an explicit [World].
    - Every object that the code mutates is referenced from one place only
      (each [deepcopy] is fresh, [infos] is fresh out of the parser), so
      in-place mutation is modelled by rebuilding the value. *)

From stdpp Require Import gmap strings list fin_maps pretty.
From Stdlib Require Import ZArith String Ascii Permutation.

Open Scope string_scope.
Open Scope Z_scope.

(** ** Exceptions and results *)

Inductive exn : Type :=
| KeyError (key : string)
| TypeError
| IndexError
| ValueError
| AttributeError
| SSLError
| RequestException (cause : string)
| LoadError (message : string)
| PrinterError (message : string).

Inductive result (A : Type) : Type :=
| Ok (a : A)
| Raise (e : exn).
Arguments Ok {A} a.
Arguments Raise {A} e.

Definition rbind {A B} (r : result A) (k : A -> result B) : result B :=
  match r with
  | Ok a => k a
  | Raise e => Raise e
  end.

Definition is_ok {A} (r : result A) : bool :=
  match r with Ok _ => true | Raise _ => false end.

Declare Scope result_scope.
Delimit Scope result_scope with res.
Notation "'try!' x := c1 'in' c2" := (rbind c1 (fun x => c2))
  (at level 10, x pattern, c1 at level 100, c2 at level 200) : result_scope.
Open Scope result_scope.

(** ** JSON values *)

#[warnings="-register-all"]
Inductive json : Type :=
| JNull
| JBool (b : bool)
| JInt (n : Z)
| JReal (mantissa exponent : Z)
| JStr (s : string)
| JList (l : list json)
| JDict (d : list (string * json)).

(** ** Python string primitives *)

(** [s[n:]]. *)
Fixpoint str_drop (n : nat) (s : string) : string :=
  match n, s with
  | O, _ => s
  | S n', String _ s' => str_drop n' s'
  | S _, EmptyString => EmptyString
  end.

(** [sub in s] on two strings. *)
Fixpoint str_contains (sub s : string) : bool :=
  String.prefix sub s ||
  match s with
  | EmptyString => false
  | String _ s' => str_contains sub s'
  end.

(** The scanner behind [s.split(sep)] for a non-empty [sep]: occurrences are
    taken left to right and do not overlap; [skip] counts the characters of
    a matched separator that are still to be passed over.  The head of the
    answer is the piece being read. *)
Fixpoint split_go (sep : string) (skip : nat) (s : string) : list string :=
  match s with
  | EmptyString => [EmptyString]
  | String c s' =>
      match skip with
      | S k => split_go sep k s'
      | O =>
          if String.prefix sep s
          then EmptyString :: split_go sep (String.length sep - 1) s'
          else match split_go sep 0 s' with
               | piece :: rest => String c piece :: rest
               | [] => [String c EmptyString]
               end
      end
  end.

(** [s.split(sep)]: an empty separator is a [ValueError]. *)
Definition str_split (sep s : string) : result (list string) :=
  if String.eqb sep "" then Raise ValueError else Ok (split_go sep 0 s).

(** The cut at the last occurrence of [sep] in [s], if there is one. *)
Fixpoint rcut (sep s : string) : option (string * string) :=
  match s with
  | EmptyString => None
  | String c s' =>
      match rcut sep s' with
      | Some (before, after) => Some (String c before, after)
      | None =>
          if String.prefix sep s
          then Some (EmptyString, str_drop (String.length sep) s)
          else None
      end
  end.

(** [s.rsplit(sep, 1)]. *)
Definition str_rsplit1 (sep s : string) : result (list string) :=
  if String.eqb sep "" then Raise ValueError
  else match rcut sep s with
       | Some (before, after) => Ok [before; after]
       | None => Ok [s]
       end.

(** [s.replace(old, new)]: for a non-empty [old] this is
    [new.join(s.split(old))]; an empty [old] matches before every character
    and at the end. *)
Fixpoint str_intersperse (new s : string) : string :=
  match s with
  | EmptyString => new
  | String c s' => new ++ String c (str_intersperse new s')
  end.

Definition str_replace (old new s : string) : string :=
  if String.eqb old "" then str_intersperse new s
  else String.concat new (split_go old 0 s).

(** ** Python object primitives on JSON values *)

Fixpoint dict_get (k : string) (d : list (string * json)) : option json :=
  match d with
  | [] => None
  | (k', v) :: d' => if String.eqb k' k then Some v else dict_get k d'
  end.

Fixpoint dict_set (k : string) (v : json) (d : list (string * json))
  : list (string * json) :=
  match d with
  | [] => [(k, v)]
  | (k', v') :: d' =>
      if String.eqb k' k then (k', v) :: d' else (k', v') :: dict_set k v d'
  end.

(** [obj[k]] for a text key: only a dict can be subscripted by text. *)
Definition getitem (obj : json) (k : string) : result json :=
  match obj with
  | JDict d =>
      match dict_get k d with
      | Some v => Ok v
      | None => Raise (KeyError k)
      end
  | _ => Raise TypeError
  end.

(** [obj[k] = v] for a text key. *)
Definition setitem (obj : json) (k : string) (v : json) : result json :=
  match obj with
  | JDict d => Ok (JDict (dict_set k v d))
  | _ => Raise TypeError
  end.

Definition is_text (needle : string) (v : json) : bool :=
  match v with
  | JStr s => String.eqb s needle
  | _ => false
  end.

(** [needle in obj] for a text needle: substring of a text, element of a
    list, key of a dict; other values do not support the test. *)
Definition contains_op (needle : string) (obj : json) : result bool :=
  match obj with
  | JStr s => Ok (str_contains needle s)
  | JList l => Ok (existsb (is_text needle) l)
  | JDict d => Ok (match dict_get needle d with Some _ => true | None => false end)
  | _ => Raise TypeError
  end.

(** What [for x in obj] visits: the elements of a list, the characters of a
    text (as one-character texts; here byte by byte, which makes no
    difference to the code, that only subscripts them), the keys of a dict. *)
Definition py_iter (obj : json) : result (list json) :=
  match obj with
  | JList l => Ok l
  | JStr s => Ok (map (fun c => JStr (String c EmptyString)) (list_ascii_of_string s))
  | JDict d => Ok (map (fun kv => JStr (fst kv)) d)
  | _ => Raise TypeError
  end.

(** [l[1]] on a list. *)
Definition index1 {A} (l : list A) : result A :=
  match l with
  | _ :: x :: _ => Ok x
  | _ => Raise IndexError
  end.

(** [(a, b) = l]: the list must have exactly two elements. *)
Definition unpack2 {A} (l : list A) : result (A * A) :=
  match l with
  | [a; b] => Ok (a, b)
  | _ => Raise ValueError
  end.

(** [copy.deepcopy]: a fresh structure with the same contents. *)
Fixpoint deepcopy (v : json) : json :=
  match v with
  | JList l => JList (map deepcopy l)
  | JDict d => JDict (map (fun '(k, x) => (k, deepcopy x)) d)
  | _ => v
  end.

(** ** The outside world: HTTP server, file system, and what was asked of them *)

Inductive http_outcome : Type :=
| HandshakeFailure                            (* requests.exceptions.SSLError *)
| TransportFailure (cause : string)           (* any other requests exception *)
| Response (status_code : Z) (body : option json).
                                              (* [None]: the body is not JSON *)

Inductive file_state : Type :=
| NoFile
| Unreadable (message : string)               (* open/json.load raises, args[0] *)
| JsonFile (content : json).

Inductive event : Type :=
| HttpGet (url : string)
| IsFile (path : string)
| LoadFile (path : string).

Global Instance event_eq_dec : EqDecision event.
Proof. solve_decision. Defined.

(** [server url n] is what the [n]-th GET of [url] meets (counting from 0). *)
Record World : Type := mkWorld {
  server : string -> nat -> http_outcome;
  files : string -> file_state;
  trace : list event
}.

Definition log (e : event) (w : World) : World :=
  mkWorld (server w) (files w) (trace w ++ [e]).

Definition gets_of (url : string) (w : World) : nat :=
  List.length (filter (fun e => e = HttpGet url) (trace w)).

(** ** The monad of effectful code: world passing with exceptions *)

Definition M (A : Type) : Type := World -> result A * World.

Definition ret {A} (a : A) : M A := fun w => (Ok a, w).
Definition raise {A} (e : exn) : M A := fun w => (Raise e, w).
Definition lift {A} (r : result A) : M A := fun w => (r, w).

Definition bind {A B} (m : M A) (k : A -> M B) : M B :=
  fun w =>
    match m w with
    | (Ok a, w') => k a w'
    | (Raise e, w') => (Raise e, w')
    end.

(** [try: m except exc: h] where [catches] says which exceptions the clause
    names. *)
Definition try_except {A} (m : M A) (catches : exn -> bool) (h : exn -> M A) : M A :=
  fun w =>
    match m w with
    | (Raise e, w') => if catches e then h e w' else (Raise e, w')
    | r => r
    end.

Declare Scope io_scope.
Delimit Scope io_scope with io.
Notation "'do!' x := c1 'in' c2" := (bind c1 (fun x => c2))
  (at level 10, x pattern, c1 at level 100, c2 at level 200) : io_scope.
Open Scope io_scope.

(** What a call of [requests.get] makes of the server's behaviour. *)
Definition outcome_result (o : http_outcome) : result (Z * option json) :=
  match o with
  | HandshakeFailure => Raise SSLError
  | TransportFailure cause => Raise (RequestException cause)
  | Response status_code body => Ok (status_code, body)
  end.

(** [requests.get(url, verify=False)]: the request is logged, and the
    server's answer to this attempt is either an exception or a response
    (status code and, when it parses, the JSON body). *)
Definition requests_get (url : string) : M (Z * option json) :=
  fun w => (outcome_result (server w url (gets_of url w)), log (HttpGet url) w).

(** [os.path.isfile(path)]. *)
Definition os_path_isfile (path : string) : M bool :=
  fun w =>
    (Ok (match files w path with NoFile => false | _ => true end),
     log (IsFile path) w).

(** [json.load(open(path))]. *)
Definition json_load_open (path : string) : M json :=
  fun w =>
    let w' := log (LoadFile path) w in
    match files w path with
    | JsonFile content => (Ok content, w')
    | Unreadable message => (Raise (LoadError message), w')
    | NoFile => (Raise (LoadError "No such file or directory"), w')
    end.

(** ** Collaborators outside [parsers.py] *)

(** Modelled from the spec: [Printer.raiseError] ([printer.py] is not among
    the sources).  Every failure of the engine is fatal and carries a message
    naming the offending path or URL: the call raises, with the message it
    was given. *)
Definition raiseError {A} (message : string) : M A :=
  raise (PrinterError message).

(** [Utils.get_version] ([utils.py] is not among the sources): the version
    resolver, applied to the root document's [apiVersion]. *)
Class Utils : Type := { get_version : json -> result string }.

(** What [%s] prints for a JSON value that is not text (its [str()]). *)
Class Formatter : Type := { format_other : json -> string }.

Definition format_s {fmt : Formatter} (v : json) : string :=
  match v with
  | JStr s => s
  | _ => format_other v
  end.

Abbreviation ResourceMap := (gmap string json).

(** Modelled from the spec: [TaskManager] ([managers.py] is not among the
    sources).  [start_task] begins executing the call it is given;
    [wait_until_exit] returns once every task has finished and surfaces the
    first failure, if any.  Tasks are independent, so they are run here in
    the order they are started, each to completion; a task that raises
    leaves the shared map as it found it, since [_grab_resource] writes to
    the map only in its last statements. *)
Module TaskManager.
Record t : Type := mk { first_failure : option exn }.

Definition new : t := mk None.

Definition note_failure (e : exn) (tm : t) : t :=
  match first_failure tm with
  | Some _ => tm
  | None => mk (Some e)
  end.

Definition start_task (tm : t) (method : ResourceMap -> M ResourceMap)
    (results : ResourceMap) : M (t * ResourceMap) :=
  fun w =>
    match method results w with
    | (Ok results', w') => (Ok (tm, results'), w')
    | (Raise e, w') => (Ok (note_failure e tm, results), w')
    end.

Definition wait_until_exit (tm : t) : M unit :=
  match first_failure tm with
  | Some e => raise e
  | None => ret tt
  end.
End TaskManager.

(** ** The abstract parser *)

Definition ENTRY_POINT : string := "/api-docs".
Definition SCHEMA_FILEPATH : string := "/schema".
Definition SWAGGER_APIS : string := "apis".
Definition SWAGGER_APIVERSION : string := "apiVersion".
Definition SWAGGER_PATH : string := "path".

(** The methods a transport overrides, and the [apiversion] attribute that
    [grab_all] reads and assigns. *)
Class AbstractSwaggerParser (P : Type) : Type := {
  apiversion : P -> option string;
  set_apiversion : string -> P -> P;
  path_for_swagger_model : P -> json -> result string;
  get_api_docs : P -> M json;
  get_swagger_model : P -> string -> string -> M json;
  get_information : P -> string -> result (list string)
}.

(** [info['models']['Metadata']['id'] = name]. *)
Definition set_model_id (info : json) (name : string) : result json :=
  try! models := getitem info "models" in
  try! model := getitem models "Metadata" in
  try! model' := setitem model "id" (JStr name) in
  try! models' := setitem models "Metadata" model' in
  setitem info "models" models'.

(** [info['apis'].append(api)]. *)
Definition apis_append (info : json) (api : json) : result json :=
  try! apis := getitem info "apis" in
  match apis with
  | JList l => setitem info "apis" (JList (l ++ [api]))
  | _ => Raise AttributeError
  end.

(** One turn of the loop over [infos['apis']]; the state is
    (metadata_info, global_metadata_info, aggregate_metadata_info). *)
Definition split_step (st : json * json * json) (api : json)
  : result (json * json * json) :=
  let '(metadata_info, global_metadata_info, aggregate_metadata_info) := st in
  let api_copy := deepcopy api in
  try! path := getitem api "path" in
  try! is_aggregate := contains_op "/aggregatemetadatas" path in
  if is_aggregate then
    try! aggregate_metadata_info := apis_append aggregate_metadata_info api_copy in
    Ok (metadata_info, global_metadata_info, aggregate_metadata_info)
  else
    try! path := getitem api "path" in
    try! is_global := contains_op "/globalmetadatas" path in
    if is_global then
      try! global_metadata_info := apis_append global_metadata_info api_copy in
      Ok (metadata_info, global_metadata_info, aggregate_metadata_info)
    else
      try! metadata_info := apis_append metadata_info api_copy in
      Ok (metadata_info, global_metadata_info, aggregate_metadata_info).

Fixpoint split_loop (st : json * json * json) (apis : list json)
  : result (json * json * json) :=
  match apis with
  | [] => Ok st
  | api :: rest =>
      try! st' := split_step st api in
      split_loop st' rest
  end.

(** The body of the [if resource_name == 'Metadata'] branch up to the three
    writes into [results]: the three derived documents, in the order
    (Metadata, GlobalMetadata, AggregateMetadata). *)
Definition split_metadata (infos : json) (package : string)
  : result (json * json * json) :=
  let metadata_info := deepcopy infos in
  let global_metadata_info := deepcopy infos in
  let aggregate_metadata_info := deepcopy infos in
  try! metadata_info := setitem metadata_info "apis" (JList []) in
  try! global_metadata_info := setitem global_metadata_info "apis" (JList []) in
  try! aggregate_metadata_info := setitem aggregate_metadata_info "apis" (JList []) in
  try! metadata_info := set_model_id metadata_info "Metadata" in
  try! global_metadata_info := set_model_id global_metadata_info "GlobalMetadata" in
  try! aggregate_metadata_info := set_model_id aggregate_metadata_info "AggregateMetadata" in
  try! apis := getitem infos "apis" in
  try! apis := py_iter apis in
  try! st := split_loop (metadata_info, global_metadata_info, aggregate_metadata_info) apis in
  let '(metadata_info, global_metadata_info, aggregate_metadata_info) := st in
  try! metadata_info := setitem metadata_info "package" (JStr package) in
  try! global_metadata_info := setitem global_metadata_info "package" (JStr package) in
  try! aggregate_metadata_info := setitem aggregate_metadata_info "package" (JStr package) in
  Ok (metadata_info, global_metadata_info, aggregate_metadata_info).

Section Engine.
Context {P : Type} {transport : AbstractSwaggerParser P} {resolver : Utils}.

(** [(package, resource_name) = self.get_information(path)]. *)
Definition information_pair (self : P) (path : string) : result (string * string) :=
  try! information := get_information self path in
  unpack2 information.

Definition _grab_resource (self : P) (path : string) (results : ResourceMap)
  : M ResourceMap :=
  do! (package, resource_name) := lift (information_pair self path) in
  do! infos := get_swagger_model self path resource_name in
  if String.eqb resource_name "Metadata" then
    do! (metadata_info, global_metadata_info, aggregate_metadata_info) :=
      lift (split_metadata infos package) in
    let results := <["Metadata" := metadata_info]> results in
    let results := <["GlobalMetadata" := global_metadata_info]> results in
    let results := <["AggregateMetadata" := aggregate_metadata_info]> results in
    ret results
  else
    do! infos := lift (setitem infos "package" (JStr package)) in
    ret (<[resource_name := infos]> results).

(** [self.path_for_swagger_model(api[SWAGGER_PATH])]. *)
Definition resource_path (self : P) (api : json) : result string :=
  try! swagger_filepath := getitem api SWAGGER_PATH in
  path_for_swagger_model self swagger_filepath.

(** The [for api in data[SWAGGER_APIS]] loop of [grab_all]. *)
Fixpoint start_tasks (self : P) (apis : list json)
    (task_manager : TaskManager.t) (models : ResourceMap)
  : M (TaskManager.t * ResourceMap) :=
  match apis with
  | [] => ret (task_manager, models)
  | api :: rest =>
      do! path := lift (resource_path self api) in
      do! (task_manager, models) :=
        TaskManager.start_task task_manager (_grab_resource self path) models in
      start_tasks self rest task_manager models
  end.

(** [grab_all] from the creation of the task manager on, with the parser
    in the state it has there. *)
Definition grab_resources (self : P) (data : json) : M (P * ResourceMap) :=
  let task_manager := TaskManager.new in
  let models : ResourceMap := ∅ in
  do! apis := lift (try! apis := getitem data SWAGGER_APIS in py_iter apis) in
  do! (task_manager, models) := start_tasks self apis task_manager models in
  do! _ := TaskManager.wait_until_exit task_manager in
  ret (self, models).

(** [grab_all] returns the dictionary of models; the parser is returned
    with it because the method may assign [self.apiversion]. *)
Definition grab_all (self : P) : M (P * ResourceMap) :=
  do! data := get_api_docs self in
  do! has_apis := lift (contains_op SWAGGER_APIS data) in
  if negb has_apis then raiseError "No apis information found in api-docs" else
  do! has_version := lift (contains_op SWAGGER_APIVERSION data) in
  if negb has_version then raiseError "No api version found in api-docs" else
  do! self :=
    match apiversion self with
    | None =>
        do! v := lift (try! raw := getitem data SWAGGER_APIVERSION in
                       get_version raw) in
        ret (set_apiversion v self)
    | Some _ => ret self
    end in
  grab_resources self data.
End Engine.

(** ** The remote transport *)

Module SwaggerURLParser.
Record t : Type := mk {
  url : string;
  apiversion : option string;
  base_path : string;
  schema_url : string
}.

(** Versions are texts, so [str(self.apiversion)] is the version itself. *)
Definition __init__ (url : string) (apiversion : option string) : M t :=
  match apiversion with
  | None => raiseError "Please specify your apiversion using -v option"
  | Some v =>
      let base_path := url ++ "V" ++ str_replace "." "_" v in
      let schema_url := base_path ++ SCHEMA_FILEPATH ++ ENTRY_POINT in
      ret (mk url apiversion base_path schema_url)
  end.

Definition path_for_swagger_model (self : t) (swagger_filepath : json)
  : result string :=
  match swagger_filepath with
  | JStr s => Ok (base_path self ++ SCHEMA_FILEPATH ++ s)
  | _ => Raise TypeError
  end.

Definition get_api_docs (self : t) : M json :=
  do! (status_code, body) := requests_get (schema_url self) in
  if negb (status_code =? 200) then
    raiseError ("[HTTP " ++ pretty status_code ++ "] Could not access "
                ++ schema_url self)
  else
    match body with
    | Some data => ret data
    | None => raiseError ("Could not load properly json from " ++ schema_url self)
    end.

Definition is_SSLError (e : exn) : bool :=
  match e with SSLError => true | _ => false end.

Definition get_swagger_model (self : t) (path resource_name : string) : M json :=
  do! (status_code, body) :=
    try_except (requests_get path) is_SSLError (fun _ => requests_get path) in
  if negb (status_code =? 200) then
    raiseError ("[HTTP " ++ pretty status_code
                ++ "] An error occured while retrieving " ++ resource_name
                ++ " at " ++ path)
  else
    match body with
    | Some data => ret data
    | None => raiseError ("Could not load properly json from " ++ path)
    end.

Definition get_information (self : t) (path : string) : result (list string) :=
  try! pieces := str_split SCHEMA_FILEPATH path in
  try! rest := index1 pieces in
  str_rsplit1 "/" rest.

Definition set_apiversion (v : string) (self : t) : t :=
  mk (url self) (Some v) (base_path self) (schema_url self).
End SwaggerURLParser.

Global Instance SwaggerURLParser_parser : AbstractSwaggerParser SwaggerURLParser.t := {|
  apiversion := SwaggerURLParser.apiversion;
  set_apiversion := SwaggerURLParser.set_apiversion;
  path_for_swagger_model := SwaggerURLParser.path_for_swagger_model;
  get_api_docs := SwaggerURLParser.get_api_docs;
  get_swagger_model := SwaggerURLParser.get_swagger_model;
  get_information := SwaggerURLParser.get_information
|}.

(** ** The local transport *)

Module SwaggerFileParser.
Record t : Type := mk {
  path : string;
  apiversion : option string;
  extension : string;
  schema_path : string
}.

Definition __init__ (path : string) (apiversion : option string) : t :=
  let extension := "" in
  mk path apiversion extension (path ++ ENTRY_POINT ++ extension).

Definition path_for_swagger_model {fmt : Formatter} (self : t) (swagger_filepath : json)
  : result string :=
  Ok (path self ++ format_s swagger_filepath ++ extension self).

Definition load (what : string) : M json :=
  do! is_file := os_path_isfile what in
  if negb is_file then raiseError ("[File Path] Could not access " ++ what) else
  try_except (json_load_open what) (fun _ => true)
    (fun e =>
       match e with
       | LoadError message =>
           raiseError ("[File Path] Could load json file " ++ what
                       ++ " due to following error:" ++ String "010" message)
       | _ => raise e
       end).

Definition get_api_docs (self : t) : M json :=
  let schema_path := path self ++ ENTRY_POINT ++ extension self in
  load schema_path.

Definition get_swagger_model (self : t) (path resource_name : string) : M json :=
  load path.

Definition get_information (self : t) (path : string) : result (list string) :=
  try! pieces := str_split (SwaggerFileParser.path self) path in
  try! rest := index1 pieces in
  str_rsplit1 "/" rest.

Definition set_apiversion (v : string) (self : t) : t :=
  mk (path self) (Some v) (extension self) (schema_path self).
End SwaggerFileParser.

Global Instance SwaggerFileParser_parser {fmt : Formatter}
  : AbstractSwaggerParser SwaggerFileParser.t := {|
  apiversion := SwaggerFileParser.apiversion;
  set_apiversion := SwaggerFileParser.set_apiversion;
  path_for_swagger_model := SwaggerFileParser.path_for_swagger_model;
  get_api_docs := SwaggerFileParser.get_api_docs;
  get_swagger_model := SwaggerFileParser.get_swagger_model;
  get_information := SwaggerFileParser.get_information
|}.

(** ** Notions used in the statements *)

(** Replacing one character by another, character by character. *)
Fixpoint str_map (f : ascii -> ascii) (s : string) : string :=
  match s with
  | EmptyString => EmptyString
  | String c s' => String (f c) (str_map f s')
  end.

Definition dot_to_underscore (c : ascii) : ascii :=
  if Ascii.eqb c "." then "_"%char else c.

(** Whether [needle in api['path']] can be evaluated, and its value. *)
Definition path_test (needle : string) (api : json) : result bool :=
  try! path := getitem api "path" in contains_op needle path.

Definition path_has (needle : string) (api : json) : bool :=
  match path_test needle api with
  | Ok b => b
  | Raise _ => false
  end.

(** The three classes of the split, as predicates on an [apis] entry. *)
Definition to_aggregate (api : json) : bool :=
  path_has "/aggregatemetadatas" api.
Definition to_global (api : json) : bool :=
  negb (path_has "/aggregatemetadatas" api) && path_has "/globalmetadatas" api.
Definition to_metadata (api : json) : bool :=
  negb (path_has "/aggregatemetadatas" api) && negb (path_has "/globalmetadatas" api).

(** An entry the loop can classify: a dict with a [path] that supports the
    [in] test. *)
Definition entry_ok (api : json) : bool :=
  is_ok (path_test "/aggregatemetadatas" api).

(** A document whose [apis] list has just been set to [l]. *)
Definition with_apis (d : list (string * json)) (l : list json) : json :=
  JDict (dict_set "apis" (JList l) d).

(** The document derived under [name] from a fetched dict [d] whose
    [models] is [dmod] and whose [models.Metadata] is [dmeta], with [l] as
    its [apis]: the original with [apis], [models.Metadata.id] and
    [package] written, in the order the code writes them. *)
Definition derived (d dmod dmeta : list (string * json)) (name package : string)
    (l : list json) : json :=
  JDict
    (dict_set "package" (JStr package)
       (dict_set "apis" (JList l)
          (dict_set "models"
             (JDict (dict_set "Metadata" (JDict (dict_set "id" (JStr name) dmeta)) dmod))
             (dict_set "apis" (JList []) d)))).

(** The entries the loop of the split visits. *)
Definition apis_entries (infos : json) : result (list json) :=
  try! apis := getitem infos "apis" in py_iter apis.

(** The fetched document has a [models] dict holding a [Metadata] dict. *)
Definition models_ok (infos : json) : bool :=
  match getitem infos "models" with
  | Ok (JDict dmod) =>
      match dict_get "Metadata" dmod with
      | Some (JDict _) => true
      | _ => false
      end
  | _ => false
  end.

(** The exact condition under which the split goes through. *)
Definition split_ready (infos : json) : bool :=
  models_ok infos &&
  match apis_entries infos with
  | Ok entries => forallb entry_ok entries
  | Raise _ => false
  end.

(** Every way the split can fail: a key that is missing, or a value of the
    wrong kind. *)
Definition split_failure (e : exn) : Prop :=
  e = TypeError \/
  e = KeyError "models" \/ e = KeyError "Metadata" \/
  e = KeyError "apis" \/ e = KeyError "path".

(** [info['models']['Metadata']['id']]. *)
Definition model_id (info : json) : result json :=
  try! models := getitem info "models" in
  try! model := getitem models "Metadata" in
  getitem model "id".

(** ** A small discovery run, used to exercise the statements *)

Module Sample.
Definition formatter : Formatter := {| format_other := fun _ => "" |}.

Definition utils : Utils :=
  {| get_version := fun raw =>
       match raw with
       | JStr s => Ok s
       | _ => Raise TypeError
       end |}.

Definition api (p : string) : json := JDict [("path", JStr p)].

Definition root_with (version : string) : json :=
  JDict [("apiVersion", JStr version);
         ("apis", JList [api "/v1/Metadata"; api "/v1/foo"])].

Definition root_doc : json := root_with "3.0".

Definition metadata_doc : json :=
  JDict [("models", JDict [("Metadata", JDict [("id", JStr "Metadata")])]);
         ("apis", JList [api "/v1/aggregatemetadatas";
                         api "/v1/globalmetadatas";
                         api "/v1/other"])].

Definition foo_doc : json := JDict [("models", JDict [])].

Definition disk_of (root : json) (p : string) : file_state :=
  if String.eqb p "/x/api-docs" then JsonFile root
  else if String.eqb p "/x/v1/Metadata" then JsonFile metadata_doc
  else if String.eqb p "/x/v1/foo" then JsonFile foo_doc
  else NoFile.

Definition offline (url : string) (attempt : nat) : http_outcome :=
  TransportFailure "unreachable".

Definition world_of (root : json) : World := mkWorld offline (disk_of root) [].

Definition world : World := world_of root_doc.

Definition local_parser : SwaggerFileParser.t :=
  SwaggerFileParser.__init__ "/x" None.

(** A Metadata document whose [apis] is an empty dict, not a list. *)
Definition loose_doc : json :=
  JDict [("models", JDict [("Metadata", JDict [])]); ("apis", JDict [])].

Definition loose_disk (p : string) : file_state :=
  if String.eqb p "/x/v1/Metadata" then JsonFile loose_doc else NoFile.

Definition loose_world : World := mkWorld offline loose_disk [].

(** A Metadata document with an entry whose [path] is a number. *)
Definition numeric_doc : json :=
  JDict [("models", JDict [("Metadata", JDict [])]);
         ("apis", JList [JDict [("path", JInt 5)]])].

(** A Metadata document without [models]. *)
Definition bare_doc : json := JDict [("apis", JList [])].

Definition bare_disk (p : string) : file_state :=
  if String.eqb p "/x/v1/Metadata" then JsonFile bare_doc else NoFile.

Definition bare_world : World := mkWorld offline bare_disk [].
End Sample.

Module SampleRemote.
(** A server whose first answer to any URL is a failed handshake and whose
    later answers are the sample Metadata document. *)
Definition flaky (url : string) (attempt : nat) : http_outcome :=
  match attempt with
  | O => HandshakeFailure
  | S _ => Response 200 (Some Sample.metadata_doc)
  end.

(** A server that knows no URL. *)
Definition lost (url : string) (attempt : nat) : http_outcome :=
  Response 404 None.

Definition no_disk (p : string) : file_state := NoFile.

Definition flaky_world : World := mkWorld flaky no_disk [].
Definition lost_world : World := mkWorld lost no_disk [].

Definition remote_parser : SwaggerURLParser.t :=
  SwaggerURLParser.mk "http://h/" (Some "3.0") "http://h/V3_0"
    "http://h/V3_0/schema/api-docs".
End SampleRemote.

(** The shape that the split presupposes: a dict with a [models] dict
    holding a [Metadata] dict, and an [apis] list whose every entry is a
    dict with a [path]. *)
Definition has_path (api : json) : bool := is_ok (getitem api "path").

Definition metadata_shape (infos : json) : bool :=
  models_ok infos &&
  match getitem infos "apis" with
  | Ok (JList l) => forallb has_path l
  | _ => false
  end.

(** An [apis] that is not a list and yet has nothing to visit. *)
Definition empty_apis (infos : json) : bool :=
  match getitem infos "apis" with
  | Ok (JStr EmptyString) => true
  | Ok (JDict []) => true
  | _ => false
  end.

(** The presupposed shape with every [path] a text. *)
Definition has_text_path (api : json) : bool :=
  match getitem api "path" with
  | Ok (JStr _) => true
  | _ => false
  end.

Definition metadata_shape_text (infos : json) : bool :=
  models_ok infos &&
  match getitem infos "apis" with
  | Ok (JList l) => forallb has_text_path l
  | _ => false
  end.

(** ** The factory *)

Module SwaggerParserFactory.
(** [if path:] holds for a path that is given and is not the empty text. *)
Definition truthy (path : option string) : bool :=
  match path with
  | Some (String _ _) => true
  | _ => false
  end.

(** What [%s] prints for the [url] argument, whose default is [None]. *)
Definition url_text (url : option string) : string :=
  match url with
  | Some u => u
  | None => "None"
  end.

(** [create(url=None, path=None, apiversion=None)]: the local transport when
    a path is given, the remote transport otherwise.  The remote parser
    uses its [url] only through [%s], so it is handed the text that [%s]
    prints. *)
Definition create (url path apiversion : option string)
  : M (SwaggerFileParser.t + SwaggerURLParser.t) :=
  match path with
  | Some (String c p) => ret (inl (SwaggerFileParser.__init__ (String c p) apiversion))
  | _ =>
      do! parser := SwaggerURLParser.__init__ (url_text url) apiversion in
      ret (inr parser)
  end.
End SwaggerParserFactory.

(** [info['models']['Metadata'][field]]. *)
Definition model_field (info : json) (field : string) : result json :=
  try! models := getitem info "models" in
  try! model := getitem models "Metadata" in
  getitem model field.

(** [info['models'][name]]. *)
Definition model_named (info : json) (name : string) : result json :=
  try! models := getitem info "models" in
  getitem models name.

(** Whether a character occurs in a text. *)
Fixpoint char_in (c : ascii) (s : string) : bool :=
  match s with
  | EmptyString => false
  | String c' s' => Ascii.eqb c' c || char_in c s'
  end.

(** ** More sample worlds *)

Module SampleMore.
(** A disk whose Metadata file holds a JSON array, whose "foo" file does not
    parse, and that has no other file. *)
Definition odd_disk (p : string) : file_state :=
  if String.eqb p "/x/v1/Metadata" then JsonFile (JList [])
  else if String.eqb p "/x/v1/foo" then Unreadable "Expecting value"
  else if String.eqb p "/x/api-docs"
       then JsonFile (JDict [("apiVersion", JStr "3.0");
                             ("apis", JList [Sample.api "/v1/foo";
                                             JDict [("name", JStr "bar")];
                                             Sample.api "/v1/Metadata"])])
  else NoFile.

Definition odd_world : World := mkWorld Sample.offline odd_disk [].

(** A disk with a root document that lists no resource. *)
Definition empty_disk (p : string) : file_state :=
  if String.eqb p "/x/api-docs"
  then JsonFile (JDict [("apiVersion", JStr "3.0"); ("apis", JList [])])
  else NoFile.

Definition empty_world : World := mkWorld Sample.offline empty_disk [].

(** A server that answers every request with status 200 and a body that is
    not JSON. *)
Definition garbled (url : string) (attempt : nat) : http_outcome :=
  Response 200 None.

Definition garbled_world : World := mkWorld garbled SampleRemote.no_disk [].

(** A server that answers every request with the sample root document. *)
Definition serving (url : string) (attempt : nat) : http_outcome :=
  Response 200 (Some Sample.root_doc).

Definition serving_world : World := mkWorld serving SampleRemote.no_disk [].

(** A server on which every handshake fails. *)
Definition refusing (url : string) (attempt : nat) : http_outcome :=
  HandshakeFailure.

Definition refusing_world : World := mkWorld refusing SampleRemote.no_disk [].
End SampleMore.

(** * Properties *)

(** ** Strings *)

Lemma prefix_app (r p : string) : String.prefix r (r ++ p) = true.
Proof.
  induction r as [|c r IH]; simpl; [by destruct p|].
  by destruct (ascii_dec c c).
Qed.

Lemma prefix_cons (a b : ascii) (s1 s2 : string) :
  String.prefix (String a s1) (String b s2) =
  if ascii_dec a b then String.prefix s1 s2 else false.
Proof. reflexivity. Qed.

Lemma str_contains_cons (sub : string) (c : ascii) (s : string) :
  str_contains sub (String c s) = String.prefix sub (String c s) || str_contains sub s.
Proof. reflexivity. Qed.

Lemma split_go_cons (sep : string) (c : ascii) (s : string) :
  split_go sep 0 (String c s) =
  if String.prefix sep (String c s)
  then EmptyString :: split_go sep (String.length sep - 1) s
  else match split_go sep 0 s with
       | piece :: rest => String c piece :: rest
       | [] => [String c EmptyString]
       end.
Proof. reflexivity. Qed.

Lemma rcut_cons (sep : string) (c : ascii) (s : string) :
  rcut sep (String c s) =
  match rcut sep s with
  | Some (before, after) => Some (String c before, after)
  | None =>
      if String.prefix sep (String c s)
      then Some (EmptyString, str_drop (String.length sep) (String c s))
      else None
  end.
Proof. reflexivity. Qed.

Lemma split_go_skip (sep r p : string) :
  split_go sep (String.length r) (r ++ p) = split_go sep 0 p.
Proof. induction r as [|c r IH]; simpl; [by destruct p | done]. Qed.

(** A separator that does not occur leaves the text in one piece. *)
Lemma split_go_absent (sep s : string) :
  str_contains sep s = false -> split_go sep 0 s = [s].
Proof.
  induction s as [|c s IH]; [done|].
  rewrite str_contains_cons, split_go_cons.
  intros Hc. apply orb_false_iff in Hc as [Hp Hc].
  by rewrite Hp, (IH Hc).
Qed.

(** Splitting just after a leading separator. *)
Lemma split_go_leading (sep p : string) :
  sep <> EmptyString ->
  split_go sep 0 (sep ++ p) = EmptyString :: split_go sep 0 p.
Proof.
  destruct sep as [|c r]; [done|]. intros _.
  change (String c r ++ p) with (String c (r ++ p)).
  rewrite split_go_cons.
  change (String c (r ++ p)) with (String c r ++ p).
  rewrite prefix_app.
  replace (String.length (String c r) - 1)%nat with (String.length r)
    by (cbn [String.length]; lia).
  by rewrite split_go_skip.
Qed.

Lemma rcut_absent (sep s : string) :
  str_contains sep s = false -> rcut sep s = None.
Proof.
  induction s as [|c s IH]; [done|].
  rewrite str_contains_cons, rcut_cons.
  intros Hc. apply orb_false_iff in Hc as [Hp Hc].
  by rewrite (IH Hc), Hp.
Qed.

(** Cutting at a "/" that is followed by no other "/". *)
Lemma rcut_last_slash (pkg name : string) :
  str_contains "/" name = false ->
  rcut "/" (pkg ++ "/" ++ name) = Some (pkg, name).
Proof.
  intros Hn. induction pkg as [|c pkg IH].
  - change ("" ++ "/" ++ name) with (String "/" name).
    rewrite rcut_cons, (rcut_absent _ _ Hn).
    change (String "/" name) with ("/" ++ name).
    by rewrite prefix_app.
  - change (String c pkg ++ "/" ++ name) with (String c (pkg ++ "/" ++ name)).
    by rewrite rcut_cons, IH.
Qed.

Lemma split_go_nonempty (sep : string) (k : nat) (s : string) :
  split_go sep k s <> [].
Proof.
  revert k. induction s as [|c s IH]; intros k; [done|].
  destruct k as [|k]; [|apply IH].
  rewrite split_go_cons. destruct (String.prefix sep (String c s)); [done|].
  by destruct (split_go sep 0 s).
Qed.

Lemma append_cons (c : ascii) (s t : string) : String c s ++ t = String c (s ++ t).
Proof. reflexivity. Qed.

Lemma append_empty_r (s : string) : s ++ "" = s.
Proof. induction s as [|c s IH]; [done|]. by rewrite append_cons, IH. Qed.

Lemma append_assoc (a b c : string) : (a ++ b) ++ c = a ++ b ++ c.
Proof. induction a as [|x a IH]; [done|]. by rewrite !append_cons, IH. Qed.

Lemma concat_cons (sep x : string) (l : list string) :
  l <> [] -> String.concat sep (x :: l) = x ++ sep ++ String.concat sep l.
Proof. by destruct l. Qed.

(** [v.replace(".", "_")] turns every dot into an underscore and touches
    nothing else. *)
Lemma str_replace_dots (v : string) :
  str_replace "." "_" v = str_map dot_to_underscore v.
Proof.
  unfold str_replace. cbn [String.eqb Ascii.eqb].
  change (if (String "." "" =? "")%string then _ else ?x) with x.
  induction v as [|c v IH]; [done|].
  rewrite split_go_cons. cbn [str_map]. unfold dot_to_underscore at 1.
  destruct (Ascii.eqb c ".") eqn:Hc.
  - apply Ascii.eqb_eq in Hc as ->.
    change (String "." v) with ("." ++ v). rewrite prefix_app.
    cbn [String.length Nat.sub].
    rewrite concat_cons by apply split_go_nonempty.
    change ("" ++ "_" ++ ?x) with (String "_" x). by rewrite IH.
  - assert (String.prefix "." (String c v) = false) as ->.
    { rewrite prefix_cons. destruct (ascii_dec "." c) as [<-|]; [|done].
      by rewrite Ascii.eqb_refl in Hc. }
    destruct (split_go "." 0 v) as [|piece rest] eqn:Hs.
    { by destruct (split_go_nonempty "." 0 v). }
    rewrite <- IH. by destruct rest.
Qed.

(** ** JSON values and dicts *)

(** Induction over a JSON value that reaches inside lists and dicts. *)
Lemma json_nested_ind (Q : json -> Prop) :
  Q JNull ->
  (forall b, Q (JBool b)) ->
  (forall n, Q (JInt n)) ->
  (forall m e, Q (JReal m e)) ->
  (forall s, Q (JStr s)) ->
  (forall l, Forall Q l -> Q (JList l)) ->
  (forall d, Forall (fun kv => Q (snd kv)) d -> Q (JDict d)) ->
  forall v, Q v.
Proof.
  intros HN HB HI HR HS HL HD. fix IH 1.
  intros [| b | n | m e | s | l | d];
    [apply HN | apply HB | apply HI | apply HR | apply HS | apply HL | apply HD].
  - induction l as [|x l IHl]; constructor; [apply IH | exact IHl].
  - induction d as [|[k x] d IHd]; constructor; [apply IH | exact IHd].
Qed.

(** A deep copy has the contents of its original. *)
Lemma deepcopy_id (v : json) : deepcopy v = v.
Proof.
  induction v as [| | | | | l IHl | d IHd] using json_nested_ind; try done.
  - cbn [deepcopy]. f_equal. induction IHl as [|x l Hx _ IH]; [done|].
    cbn [map]. by rewrite Hx, IH.
  - cbn [deepcopy]. f_equal. induction IHd as [|[k x] d Hx _ IH]; [done|].
    cbn [map]. cbn in Hx. by rewrite Hx, IH.
Qed.

Lemma dict_get_set_eq (k : string) (v : json) (d : list (string * json)) :
  dict_get k (dict_set k v d) = Some v.
Proof.
  induction d as [|[k' v'] d IH]; cbn.
  - by rewrite String.eqb_refl.
  - destruct (String.eqb k' k) eqn:E; cbn; by rewrite E.
Qed.

Lemma dict_get_set_ne (k k' : string) (v : json) (d : list (string * json)) :
  k <> k' -> dict_get k' (dict_set k v d) = dict_get k' d.
Proof.
  intros Hne. induction d as [|[k0 v0] d IH]; cbn.
  - destruct (String.eqb k k') eqn:E; [|done].
    by apply String.eqb_eq in E.
  - destruct (String.eqb k0 k) eqn:E; cbn; [|by rewrite IH].
    apply String.eqb_eq in E as ->.
    destruct (String.eqb k k') eqn:E'; [|done].
    by apply String.eqb_eq in E'.
Qed.

Lemma getitem_setitem_eq (obj obj' : json) (k : string) (v : json) :
  setitem obj k v = Ok obj' -> getitem obj' k = Ok v.
Proof.
  destruct obj; try done. cbn. intros [= <-]. cbn. by rewrite dict_get_set_eq.
Qed.

Lemma getitem_setitem_ne (obj obj' : json) (k k' : string) (v : json) :
  k <> k' -> setitem obj k v = Ok obj' -> getitem obj' k' = getitem obj k'.
Proof.
  intros Hne. destruct obj; try done. cbn. intros [= <-]. cbn.
  by rewrite dict_get_set_ne.
Qed.

(** Whether the test can be evaluated does not depend on the needle. *)
Lemma path_test_ok (needle : string) (api : json) :
  entry_ok api = true -> path_test needle api = Ok (path_has needle api).
Proof.
  unfold entry_ok, path_has, path_test.
  destruct (getitem api "path") as [p|e]; cbn; [|done].
  by destruct p.
Qed.

Lemma path_test_fail (api : json) :
  entry_ok api = false ->
  exists e, path_test "/aggregatemetadatas" api = Raise e /\
            (e = TypeError \/ e = KeyError "path").
Proof.
  unfold entry_ok, path_test.
  destruct api as [| | | | | |d]; cbn; try (intros _; eexists; eauto; fail).
  destruct (dict_get "path" d) as [p|]; cbn; [|intros _; eexists; eauto].
  destruct p; cbn; try done; intros _; eexists; eauto.
Qed.

Lemma dict_set_set (k : string) (v v' : json) (d : list (string * json)) :
  dict_set k v (dict_set k v' d) = dict_set k v d.
Proof.
  induction d as [|[k0 v0] d IH]; cbn.
  - by rewrite String.eqb_refl.
  - destruct (String.eqb k0 k) eqn:E; cbn; rewrite E; [done | by rewrite IH].
Qed.

Lemma dict_set_same (k : string) (v : json) (d : list (string * json)) :
  dict_get k d = Some v -> dict_set k v d = d.
Proof.
  induction d as [|[k0 v0] d IH]; cbn; [done|].
  destruct (String.eqb k0 k); [by intros [= ->] | intros Hg; by rewrite IH].
Qed.

(** ** The Metadata split *)

Lemma with_apis_same (d : list (string * json)) (l : list json) :
  dict_get "apis" d = Some (JList l) -> with_apis d l = JDict d.
Proof. intros Hg. unfold with_apis. by rewrite dict_set_same. Qed.

Lemma apis_append_with_apis (d : list (string * json)) (l : list json) (api : json) :
  apis_append (with_apis d l) api = Ok (with_apis d (l ++ [api])).
Proof.
  unfold apis_append, with_apis. cbn. rewrite dict_get_set_eq. cbn.
  by rewrite dict_set_set.
Qed.

Lemma split_step_ok (dm dg da : list (string * json)) (lm lg la : list json)
    (api : json) :
  entry_ok api = true ->
  split_step (with_apis dm lm, with_apis dg lg, with_apis da la) api =
  Ok (with_apis dm (lm ++ List.filter to_metadata [api]),
      with_apis dg (lg ++ List.filter to_global [api]),
      with_apis da (la ++ List.filter to_aggregate [api])).
Proof.
  intros Hok. unfold split_step. rewrite deepcopy_id.
  pose proof (path_test_ok "/aggregatemetadatas" api Hok) as Ha.
  pose proof (path_test_ok "/globalmetadatas" api Hok) as Hg.
  unfold path_test in Ha, Hg.
  destruct (getitem api "path") as [p|e]; cbn in Ha, Hg |- *; [|done].
  rewrite Ha. cbn. unfold to_metadata, to_global, to_aggregate.
  destruct (path_has "/aggregatemetadatas" api); cbn.
  - rewrite apis_append_with_apis. cbn. by rewrite !app_nil_r.
  - rewrite Hg. cbn. destruct (path_has "/globalmetadatas" api); cbn;
      rewrite apis_append_with_apis; cbn; by rewrite !app_nil_r.
Qed.

Lemma split_step_fail (st : json * json * json) (api : json) :
  entry_ok api = false ->
  exists e, split_step st api = Raise e /\ (e = TypeError \/ e = KeyError "path").
Proof.
  intros Hbad. destruct (path_test_fail api Hbad) as (e & He & Hkind).
  exists e. split; [|done]. destruct st as [[m g] a]. unfold split_step.
  unfold path_test in He.
  destruct (getitem api "path") as [p|e']; cbn in He |- *; [|congruence].
  by rewrite He.
Qed.

(** The loop appends each entry to exactly one of the three lists, in the
    order of the original list. *)
Lemma split_loop_ok (apis : list json) :
  forall (dm dg da : list (string * json)) (lm lg la : list json),
  forallb entry_ok apis = true ->
  split_loop (with_apis dm lm, with_apis dg lg, with_apis da la) apis =
  Ok (with_apis dm (lm ++ List.filter to_metadata apis),
      with_apis dg (lg ++ List.filter to_global apis),
      with_apis da (la ++ List.filter to_aggregate apis)).
Proof.
  induction apis as [|api rest IH]; intros dm dg da lm lg la Hall.
  - cbn. by rewrite !app_nil_r.
  - cbn [forallb] in Hall. apply andb_true_iff in Hall as [Hapi Hrest].
    cbn [split_loop]. rewrite (split_step_ok _ _ _ _ _ _ _ Hapi). cbn [rbind].
    rewrite (IH _ _ _ _ _ _ Hrest). rewrite <- !app_assoc.
    do 3 f_equal; try f_equal; cbn [List.filter];
      by destruct (to_metadata api), (to_global api), (to_aggregate api).
Qed.

Lemma split_loop_fail (apis : list json) :
  forall (dm dg da : list (string * json)) (lm lg la : list json),
  forallb entry_ok apis = false ->
  exists e, split_loop (with_apis dm lm, with_apis dg lg, with_apis da la) apis
            = Raise e /\ (e = TypeError \/ e = KeyError "path").
Proof.
  induction apis as [|api rest IH]; intros dm dg da lm lg la Hall; [done|].
  cbn [forallb] in Hall. cbn [split_loop].
  destruct (entry_ok api) eqn:Hapi.
  - rewrite (split_step_ok _ _ _ _ _ _ _ Hapi). cbn [rbind]. by apply IH.
  - destruct (split_step_fail (with_apis dm lm, with_apis dg lg, with_apis da la)
                api Hapi) as (e & -> & Hkind).
    by exists e.
Qed.

Lemma set_model_id_ok (d dmod dmeta : list (string * json)) (name : string) :
  dict_get "models" d = Some (JDict dmod) ->
  dict_get "Metadata" dmod = Some (JDict dmeta) ->
  set_model_id (JDict d) name =
  Ok (JDict (dict_set "models"
               (JDict (dict_set "Metadata" (JDict (dict_set "id" (JStr name) dmeta)) dmod))
               d)).
Proof. intros Hm Hd. unfold set_model_id. cbn. rewrite Hm. cbn. by rewrite Hd. Qed.

Lemma set_model_id_fail (d : list (string * json)) (name : string) :
  models_ok (JDict d) = false ->
  exists e, set_model_id (JDict d) name = Raise e /\
            (e = TypeError \/ e = KeyError "models" \/ e = KeyError "Metadata").
Proof.
  unfold models_ok, set_model_id. cbn.
  destruct (dict_get "models" d) as [m|]; cbn; [|intros _; eexists; eauto].
  destruct m as [| | | | | |dmod]; cbn; try (intros _; eexists; eauto; fail).
  destruct (dict_get "Metadata" dmod) as [md|]; cbn; [|intros _; eexists; eauto].
  destruct md; cbn; try done; intros _; eexists; eauto.
Qed.

Lemma models_ok_after_apis (d : list (string * json)) (l : list json) :
  models_ok (JDict (dict_set "apis" (JList l) d)) = models_ok (JDict d).
Proof. unfold models_ok. cbn. by rewrite dict_get_set_ne. Qed.

(** Writing [models.Metadata.id] into a copy whose [apis] has just been
    emptied. *)
Lemma set_model_id_cleared (d dmod dmeta : list (string * json)) (name : string) :
  dict_get "models" d = Some (JDict dmod) ->
  dict_get "Metadata" dmod = Some (JDict dmeta) ->
  set_model_id (JDict (dict_set "apis" (JList []) d)) name =
  Ok (with_apis (dict_set "models"
        (JDict (dict_set "Metadata" (JDict (dict_set "id" (JStr name) dmeta)) dmod))
        (dict_set "apis" (JList []) d)) []).
Proof.
  intros Hm Hd. rewrite (set_model_id_ok _ dmod dmeta).
  - f_equal. symmetry. apply with_apis_same.
    rewrite dict_get_set_ne by done. apply dict_get_set_eq.
  - by rewrite dict_get_set_ne.
  - done.
Qed.

(** The split, in closed form. *)
Lemma split_metadata_ok (d dmod dmeta : list (string * json)) (entries : list json)
    (package : string) :
  dict_get "models" d = Some (JDict dmod) ->
  dict_get "Metadata" dmod = Some (JDict dmeta) ->
  apis_entries (JDict d) = Ok entries ->
  forallb entry_ok entries = true ->
  split_metadata (JDict d) package =
  Ok (derived d dmod dmeta "Metadata" package (List.filter to_metadata entries),
      derived d dmod dmeta "GlobalMetadata" package (List.filter to_global entries),
      derived d dmod dmeta "AggregateMetadata" package (List.filter to_aggregate entries)).
Proof.
  intros Hm Hd He Hall. unfold split_metadata. rewrite deepcopy_id.
  cbn [setitem rbind].
  rewrite !(set_model_id_cleared d dmod dmeta _ Hm Hd). cbn [rbind].
  unfold apis_entries in He.
  destruct (getitem (JDict d) "apis") as [a|]; cbn [rbind] in He |- *; [|done].
  rewrite He. cbn [rbind]. rewrite (split_loop_ok _ _ _ _ _ _ _ Hall).
  reflexivity.
Qed.

Lemma split_ready_inv (infos : json) :
  split_ready infos = true ->
  exists d dmod dmeta entries,
    infos = JDict d /\
    dict_get "models" d = Some (JDict dmod) /\
    dict_get "Metadata" dmod = Some (JDict dmeta) /\
    apis_entries infos = Ok entries /\
    forallb entry_ok entries = true.
Proof.
  unfold split_ready, models_ok. intros H. apply andb_true_iff in H as [Hm Ha].
  destruct infos as [| | | | | |d]; try done. cbn in Hm.
  destruct (dict_get "models" d) as [[| | | | | |dmod]|] eqn:Em; try done.
  destruct (dict_get "Metadata" dmod) as [[| | | | | |dmeta]|] eqn:Ed; try done.
  destruct (apis_entries (JDict d)) as [entries|]; [|done].
  by exists d, dmod, dmeta, entries.
Qed.

Lemma split_metadata_fail (infos : json) (package : string) :
  split_ready infos = false ->
  exists e, split_metadata infos package = Raise e /\ split_failure e.
Proof.
  unfold split_failure. intros Hnot. unfold split_metadata. rewrite deepcopy_id.
  destruct infos as [| | | | | |d];
    try (eexists; split; [reflexivity | eauto]; fail).
  cbn [setitem rbind].
  destruct (models_ok (JDict d)) eqn:Hm.
  - unfold split_ready in Hnot. rewrite Hm in Hnot. cbn [andb] in Hnot.
    unfold models_ok in Hm. cbn in Hm.
    destruct (dict_get "models" d) as [[| | | | | |dmod]|] eqn:Em; try done.
    destruct (dict_get "Metadata" dmod) as [[| | | | | |dmeta]|] eqn:Ed; try done.
    rewrite !(set_model_id_cleared d dmod dmeta _ Em Ed). cbn [rbind]. unfold apis_entries in Hnot.
    cbn [getitem] in Hnot |- *.
    destruct (dict_get "apis" d) as [a|]; cbn [rbind] in Hnot |- *;
      [|eexists; split; [reflexivity | eauto 6]].
    destruct (py_iter a) as [entries|e] eqn:Hit; cbn [rbind].
    + pose proof (fun dm dg da => split_loop_fail entries dm dg da [] [] [] Hnot)
        as Hloop.
      edestruct Hloop as (e & He & [->| ->]); rewrite He; cbn [rbind];
        eexists; (split; [reflexivity | eauto 6]).
    + exists e. split; [done|]. left. destruct a; cbn in Hit; congruence.
  - rewrite <- (models_ok_after_apis d []) in Hm.
    destruct (set_model_id_fail _ "Metadata" Hm) as (e & -> & [->|[->| ->]]);
      eexists; (split; [reflexivity | eauto 6]).
Qed.

Lemma derived_apis (d dmod dmeta : list (string * json)) (name package : string)
    (l : list json) :
  getitem (derived d dmod dmeta name package l) "apis" = Ok (JList l).
Proof.
  unfold derived. cbn. rewrite dict_get_set_ne by done.
  by rewrite dict_get_set_eq.
Qed.

Lemma derived_package (d dmod dmeta : list (string * json)) (name package : string)
    (l : list json) :
  getitem (derived d dmod dmeta name package l) "package" = Ok (JStr package).
Proof. unfold derived. cbn. by rewrite dict_get_set_eq. Qed.

Lemma derived_model_id (d dmod dmeta : list (string * json)) (name package : string)
    (l : list json) :
  model_id (derived d dmod dmeta name package l) = Ok (JStr name).
Proof.
  unfold derived, model_id. cbn.
  rewrite !dict_get_set_ne by done. rewrite dict_get_set_eq. cbn.
  rewrite dict_get_set_eq. cbn. by rewrite dict_get_set_eq.
Qed.

(** What [derived] leaves alone: every top-level key other than the three
    it writes. *)
Lemma derived_other (d dmod dmeta : list (string * json)) (name package : string)
    (l : list json) (k : string) :
  k <> "apis" -> k <> "models" -> k <> "package" ->
  getitem (derived d dmod dmeta name package l) k = getitem (JDict d) k.
Proof.
  intros Ha Hm Hp. unfold derived. cbn.
  by rewrite !dict_get_set_ne by done.
Qed.

(** ** The per-resource task *)

Section Task.
Context {P : Type} {transport : AbstractSwaggerParser P}.

(** [_grab_resource], outcome by outcome. *)
Lemma grab_resource_run (self : P) (path : string) (results : ResourceMap)
    (w : World) :
  _grab_resource self path results w =
  match information_pair self path with
  | Raise e => (Raise e, w)
  | Ok (package, resource_name) =>
      match get_swagger_model self path resource_name w with
      | (Raise e, w1) => (Raise e, w1)
      | (Ok infos, w1) =>
          if String.eqb resource_name "Metadata" then
            match split_metadata infos package with
            | Ok (m, g, a) =>
                (Ok (<["AggregateMetadata" := a]>
                       (<["GlobalMetadata" := g]> (<["Metadata" := m]> results))),
                 w1)
            | Raise e => (Raise e, w1)
            end
          else
            match setitem infos "package" (JStr package) with
            | Ok infos' => (Ok (<[resource_name := infos']> results), w1)
            | Raise e => (Raise e, w1)
            end
      end
  end.
Proof.
  unfold _grab_resource, bind, lift, ret.
  destruct (information_pair self path) as [[package name]|e]; [|done].
  destruct (get_swagger_model self path name w) as [[infos|e] w1]; [|done].
  destruct (String.eqb name "Metadata").
  - by destruct (split_metadata infos package) as [[[m g] a]|e].
  - by destruct (setitem infos "package" (JStr package)).
Qed.
End Task.

(** ** The partition of the [apis] entries *)

(** Each entry is in exactly one of the three classes. *)
Lemma one_class (api : json) :
  (to_aggregate api = true /\ to_global api = false /\ to_metadata api = false) \/
  (to_aggregate api = false /\ to_global api = true /\ to_metadata api = false) \/
  (to_aggregate api = false /\ to_global api = false /\ to_metadata api = true).
Proof.
  unfold to_aggregate, to_global, to_metadata.
  destruct (path_has "/aggregatemetadatas" api), (path_has "/globalmetadatas" api);
    cbn; auto.
Qed.

Lemma classes_permutation (l : list json) :
  Permutation l
    (List.filter to_aggregate l ++ List.filter to_global l ++ List.filter to_metadata l).
Proof.
  induction l as [|api l IH]; [done|]. cbn [List.filter].
  destruct (one_class api) as [(-> & -> & ->)|[(-> & -> & ->)|(-> & -> & ->)]].
  - cbn. by apply perm_skip.
  - etransitivity; [apply perm_skip, IH|]. apply Permutation_middle.
  - etransitivity; [apply perm_skip, IH|].
    rewrite !app_assoc. apply Permutation_middle.
Qed.

Lemma classes_length (l : list json) :
  (List.length (List.filter to_aggregate l) + List.length (List.filter to_global l)
   + List.length (List.filter to_metadata l) = List.length l)%nat.
Proof.
  pose proof (Permutation_length (classes_permutation l)) as Hlen.
  rewrite !length_app in Hlen. lia.
Qed.

(** On an entry whose [path] is a text, the classes are the substring tests
    of the code. *)
Lemma classes_of_text_path (api : json) (p : string) :
  getitem api "path" = Ok (JStr p) ->
  to_aggregate api = str_contains "/aggregatemetadatas" p /\
  to_global api = negb (str_contains "/aggregatemetadatas" p)
                  && str_contains "/globalmetadatas" p /\
  to_metadata api = negb (str_contains "/aggregatemetadatas" p)
                    && negb (str_contains "/globalmetadatas" p).
Proof.
  intros Hp. unfold to_aggregate, to_global, to_metadata, path_has, path_test.
  by rewrite Hp.
Qed.

Section Split.
Context {P : Type} {transport : AbstractSwaggerParser P}.

(** The task on a resource named "Metadata" whose document is fit for the
    split: the three derived documents, written under their three names. *)
Lemma grab_metadata_run (self : P) (path package : string) (results : ResourceMap)
    (w w1 : World) (infos : json) :
  information_pair self path = Ok (package, "Metadata") ->
  get_swagger_model self path "Metadata" w = (Ok infos, w1) ->
  split_ready infos = true ->
  exists d dmod dmeta entries,
    infos = JDict d /\
    dict_get "models" d = Some (JDict dmod) /\
    dict_get "Metadata" dmod = Some (JDict dmeta) /\
    apis_entries infos = Ok entries /\
    _grab_resource self path results w =
    (Ok (<["AggregateMetadata" :=
             derived d dmod dmeta "AggregateMetadata" package
               (List.filter to_aggregate entries)]>
          (<["GlobalMetadata" :=
               derived d dmod dmeta "GlobalMetadata" package
                 (List.filter to_global entries)]>
            (<["Metadata" :=
                 derived d dmod dmeta "Metadata" package
                   (List.filter to_metadata entries)]> results))), w1).
Proof.
  intros Hinfo Hfetch Hready.
  destruct (split_ready_inv infos Hready)
    as (d & dmod & dmeta & entries & -> & Hm & Hd & He & Hall).
  exists d, dmod, dmeta, entries. repeat split; try done.
  rewrite grab_resource_run, Hinfo, Hfetch. cbn [String.eqb].
  change ("Metadata" =? "Metadata")%string with true. cbn iota.
  by rewrite (split_metadata_ok d dmod dmeta entries package Hm Hd He Hall).
Qed.

(** Conversely, the task on a resource named "Metadata" succeeds only on a
    document fit for the split. *)
Lemma grab_metadata_ready (self : P) (path package : string) (results results' : ResourceMap)
    (w w1 w' : World) (infos : json) :
  information_pair self path = Ok (package, "Metadata") ->
  get_swagger_model self path "Metadata" w = (Ok infos, w1) ->
  _grab_resource self path results w = (Ok results', w') ->
  split_ready infos = true.
Proof.
  intros Hinfo Hfetch. rewrite grab_resource_run, Hinfo, Hfetch.
  change ("Metadata" =? "Metadata")%string with true. cbn iota.
  destruct (split_ready infos) eqn:Hready; [done|].
  by destruct (split_metadata_fail infos package Hready) as (e & -> & _).
Qed.

(** C1. For a resource fetched under the name "Metadata" (and fit for the
    split), the task succeeds and the [apis] entries of the original
    document are partitioned among the three derived documents: the
    entries whose path contains "/aggregatemetadatas" are the [apis] of
    AggregateMetadata; of the others, those whose path contains
    "/globalmetadatas" are the [apis] of GlobalMetadata; the remaining
    ones are the [apis] of Metadata.  Every entry is in exactly one class,
    the three lists have K entries in all for K original entries, and
    together they are a rearrangement of the original list: nothing is
    duplicated and nothing is left out. *)
Theorem metadata_apis_partition (self : P) (path package : string)
    (results : ResourceMap) (w w1 : World) (infos : json) :
  information_pair self path = Ok (package, "Metadata") ->
  get_swagger_model self path "Metadata" w = (Ok infos, w1) ->
  split_ready infos = true ->
  exists (entries : list json) (results' : ResourceMap) (m g a : json),
    apis_entries infos = Ok entries /\
    _grab_resource self path results w = (Ok results', w1) /\
    results' !! "Metadata" = Some m /\
    results' !! "GlobalMetadata" = Some g /\
    results' !! "AggregateMetadata" = Some a /\
    getitem a "apis" = Ok (JList (List.filter to_aggregate entries)) /\
    getitem g "apis" = Ok (JList (List.filter to_global entries)) /\
    getitem m "apis" = Ok (JList (List.filter to_metadata entries)) /\
    (forall api p, In api entries -> getitem api "path" = Ok (JStr p) ->
       to_aggregate api = str_contains "/aggregatemetadatas" p /\
       to_global api = negb (str_contains "/aggregatemetadatas" p)
                       && str_contains "/globalmetadatas" p /\
       to_metadata api = negb (str_contains "/aggregatemetadatas" p)
                         && negb (str_contains "/globalmetadatas" p)) /\
    (forall api, In api entries ->
       (to_aggregate api = true /\ to_global api = false /\ to_metadata api = false) \/
       (to_aggregate api = false /\ to_global api = true /\ to_metadata api = false) \/
       (to_aggregate api = false /\ to_global api = false /\ to_metadata api = true)) /\
    (List.length (List.filter to_aggregate entries)
     + List.length (List.filter to_global entries)
     + List.length (List.filter to_metadata entries) = List.length entries)%nat /\
    Permutation entries
      (List.filter to_aggregate entries ++ List.filter to_global entries
       ++ List.filter to_metadata entries).
Proof.
  intros Hinfo Hfetch Hready.
  destruct (grab_metadata_run self path package results w w1 infos
              Hinfo Hfetch Hready)
    as (d & dmod & dmeta & entries & -> & Hm & Hd & He & Hrun).
  eexists entries, _, _, _, _. split; [exact He|]. split; [exact Hrun|].
  split. { rewrite lookup_insert_ne by done. rewrite lookup_insert_ne by done.
           apply lookup_insert_eq. }
  split. { rewrite lookup_insert_ne by done. apply lookup_insert_eq. }
  split. { apply lookup_insert_eq. }
  rewrite !derived_apis. repeat split.
  - by apply classes_of_text_path.
  - by apply classes_of_text_path.
  - by apply classes_of_text_path.
  - intros api _. apply one_class.
  - apply classes_length.
  - apply classes_permutation.
Qed.
End Split.

Lemma metadata_apis_partition_witness :
  exists (entries : list json) (results' : ResourceMap) (m g a : json),
    apis_entries Sample.metadata_doc = Ok entries /\
    _grab_resource (transport := @SwaggerFileParser_parser Sample.formatter)
      Sample.local_parser "/x/v1/Metadata" ∅ Sample.world
    = (Ok results',
       snd (SwaggerFileParser.get_swagger_model Sample.local_parser
              "/x/v1/Metadata" "Metadata" Sample.world)) /\
    results' !! "Metadata" = Some m /\
    results' !! "GlobalMetadata" = Some g /\
    results' !! "AggregateMetadata" = Some a /\
    getitem a "apis" = Ok (JList (List.filter to_aggregate entries)) /\
    getitem g "apis" = Ok (JList (List.filter to_global entries)) /\
    getitem m "apis" = Ok (JList (List.filter to_metadata entries)) /\
    (forall api p, In api entries -> getitem api "path" = Ok (JStr p) ->
       to_aggregate api = str_contains "/aggregatemetadatas" p /\
       to_global api = negb (str_contains "/aggregatemetadatas" p)
                       && str_contains "/globalmetadatas" p /\
       to_metadata api = negb (str_contains "/aggregatemetadatas" p)
                         && negb (str_contains "/globalmetadatas" p)) /\
    (forall api, In api entries ->
       (to_aggregate api = true /\ to_global api = false /\ to_metadata api = false) \/
       (to_aggregate api = false /\ to_global api = true /\ to_metadata api = false) \/
       (to_aggregate api = false /\ to_global api = false /\ to_metadata api = true)) /\
    (List.length (List.filter to_aggregate entries)
     + List.length (List.filter to_global entries)
     + List.length (List.filter to_metadata entries) = List.length entries)%nat /\
    Permutation entries
      (List.filter to_aggregate entries ++ List.filter to_global entries
       ++ List.filter to_metadata entries).
Proof.
  apply (metadata_apis_partition (transport := @SwaggerFileParser_parser Sample.formatter)
           Sample.local_parser "/x/v1/Metadata" "/v1" ∅ Sample.world _
           Sample.metadata_doc); reflexivity.
Defined.

(** The run of the task on the sample Metadata document: each entry of
    [apis] ends in the document of its class. *)
Example sample_split :
  split_metadata Sample.metadata_doc "/v1" =
  Ok (JDict [("models", JDict [("Metadata", JDict [("id", JStr "Metadata")])]);
             ("apis", JList [Sample.api "/v1/other"]);
             ("package", JStr "/v1")],
      JDict [("models", JDict [("Metadata", JDict [("id", JStr "GlobalMetadata")])]);
             ("apis", JList [Sample.api "/v1/globalmetadatas"]);
             ("package", JStr "/v1")],
      JDict [("models", JDict [("Metadata", JDict [("id", JStr "AggregateMetadata")])]);
             ("apis", JList [Sample.api "/v1/aggregatemetadatas"]);
             ("package", JStr "/v1")]).
Proof. reflexivity. Qed.

Section Names.
Context {P : Type} {transport : AbstractSwaggerParser P}.

(** C3. In the Metadata split, the documents written under "Metadata",
    "GlobalMetadata" and "AggregateMetadata" each have
    [models.Metadata.id] equal to their own name, and all three carry the
    same [package], the one derived from the path of the original. *)
Theorem metadata_ids_and_package (self : P) (path package : string)
    (results : ResourceMap) (w w1 : World) (infos : json) :
  information_pair self path = Ok (package, "Metadata") ->
  get_swagger_model self path "Metadata" w = (Ok infos, w1) ->
  split_ready infos = true ->
  exists (results' : ResourceMap) (m g a : json),
    _grab_resource self path results w = (Ok results', w1) /\
    results' !! "Metadata" = Some m /\
    results' !! "GlobalMetadata" = Some g /\
    results' !! "AggregateMetadata" = Some a /\
    model_id m = Ok (JStr "Metadata") /\
    model_id g = Ok (JStr "GlobalMetadata") /\
    model_id a = Ok (JStr "AggregateMetadata") /\
    getitem m "package" = Ok (JStr package) /\
    getitem g "package" = Ok (JStr package) /\
    getitem a "package" = Ok (JStr package).
Proof.
  intros Hinfo Hfetch Hready.
  destruct (grab_metadata_run self path package results w w1 infos
              Hinfo Hfetch Hready)
    as (d & dmod & dmeta & entries & -> & Hm & Hd & He & Hrun).
  eexists _, _, _, _. split; [exact Hrun|].
  split. { rewrite lookup_insert_ne by done. rewrite lookup_insert_ne by done.
           apply lookup_insert_eq. }
  split. { rewrite lookup_insert_ne by done. apply lookup_insert_eq. }
  split. { apply lookup_insert_eq. }
  rewrite !derived_model_id, !derived_package. by repeat split.
Qed.

(** C2. For a resource whose derived name is not "Metadata", the task
    writes exactly one entry, under that name: the fetched document with
    its [package] set to the package that [get_information] derives from
    the fetch path.  The rest of the document and the rest of the map are
    as they were. *)
Theorem other_resource_entry (self : P) (path package resource_name : string)
    (results : ResourceMap) (w w1 : World) (d : list (string * json)) :
  information_pair self path = Ok (package, resource_name) ->
  resource_name <> "Metadata" ->
  get_swagger_model self path resource_name w = (Ok (JDict d), w1) ->
  exists (results' : ResourceMap) (entry : json),
    _grab_resource self path results w = (Ok results', w1) /\
    results' !! resource_name = Some entry /\
    getitem entry "package" = Ok (JStr package) /\
    (forall k, k <> "package" -> getitem entry k = getitem (JDict d) k) /\
    (forall other, other <> resource_name -> results' !! other = results !! other) /\
    (results !! resource_name = None -> size results' = S (size results)).
Proof.
  intros Hinfo Hname Hfetch.
  exists (<[resource_name := JDict (dict_set "package" (JStr package) d)]> results),
         (JDict (dict_set "package" (JStr package) d)).
  split.
  { rewrite grab_resource_run, Hinfo, Hfetch.
    by apply String.eqb_neq in Hname as ->. }
  split; [apply lookup_insert_eq|].
  split; [cbn; by rewrite dict_get_set_eq|].
  split; [intros k Hk; cbn; by rewrite dict_get_set_ne|].
  split; [intros other Ho; by rewrite lookup_insert_ne|].
  apply map_size_insert_None.
Qed.
End Names.

Lemma metadata_ids_and_package_witness :
  exists (results' : ResourceMap) (m g a : json),
    _grab_resource (transport := @SwaggerFileParser_parser Sample.formatter)
      Sample.local_parser "/x/v1/Metadata" ∅ Sample.world
    = (Ok results',
       snd (SwaggerFileParser.get_swagger_model Sample.local_parser
              "/x/v1/Metadata" "Metadata" Sample.world)) /\
    results' !! "Metadata" = Some m /\
    results' !! "GlobalMetadata" = Some g /\
    results' !! "AggregateMetadata" = Some a /\
    model_id m = Ok (JStr "Metadata") /\
    model_id g = Ok (JStr "GlobalMetadata") /\
    model_id a = Ok (JStr "AggregateMetadata") /\
    getitem m "package" = Ok (JStr "/v1") /\
    getitem g "package" = Ok (JStr "/v1") /\
    getitem a "package" = Ok (JStr "/v1").
Proof.
  apply (metadata_ids_and_package (transport := @SwaggerFileParser_parser Sample.formatter)
           Sample.local_parser "/x/v1/Metadata" "/v1" ∅ Sample.world _
           Sample.metadata_doc); reflexivity.
Defined.

Lemma other_resource_entry_witness :
  exists (results' : ResourceMap) (entry : json),
    _grab_resource (transport := @SwaggerFileParser_parser Sample.formatter)
      Sample.local_parser "/x/v1/foo" ∅ Sample.world
    = (Ok results',
       snd (SwaggerFileParser.get_swagger_model Sample.local_parser
              "/x/v1/foo" "foo" Sample.world)) /\
    results' !! "foo" = Some entry /\
    getitem entry "package" = Ok (JStr "/v1") /\
    (forall k, k <> "package" ->
       getitem entry k = getitem (JDict [("models", JDict [])]) k) /\
    (forall other, other <> "foo" -> results' !! other = (∅ : ResourceMap) !! other) /\
    ((∅ : ResourceMap) !! "foo" = None -> size results' = S (size (∅ : ResourceMap))).
Proof.
  apply (other_resource_entry (transport := @SwaggerFileParser_parser Sample.formatter)
           Sample.local_parser "/x/v1/foo" "/v1" "foo" ∅ Sample.world _
           [("models", JDict [])]); [reflexivity | discriminate | reflexivity].
Defined.

(** ** The driver *)

Section Driver.
Context {P : Type} {transport : AbstractSwaggerParser P}.

(** C4. A root document without the "apis" key or without the
    "apiVersion" key makes [grab_all] fail with the structural error of
    the missing key, and nothing happens after the fetch of the root
    document: the world is left as that fetch left it, so no resource is
    fetched, and no map is returned. *)
Theorem root_document_missing_key {resolver : Utils} (self : P) (w w1 : World)
    (d : list (string * json)) :
  get_api_docs self w = (Ok (JDict d), w1) ->
  dict_get "apis" d = None \/ dict_get "apiVersion" d = None ->
  exists message,
    grab_all self w = (Raise (PrinterError message), w1) /\
    (message = "No apis information found in api-docs" \/
     message = "No api version found in api-docs").
Proof.
  intros Hroot Hmissing. unfold grab_all, bind, lift, raiseError, raise.
  rewrite Hroot. unfold SWAGGER_APIS, SWAGGER_APIVERSION. cbn [contains_op].
  destruct (dict_get "apis" d) as [apis|] eqn:Hapis.
  - destruct Hmissing as [|Hversion]; [done|]. rewrite Hversion.
    eexists. split; [reflexivity | by right].
  - eexists. split; [reflexivity | by left].
Qed.

(** The prologue of [grab_all] when the parser has a version. *)
Lemma grab_all_pinned {resolver : Utils} (self : P) (v : string) (w : World) :
  apiversion self = Some v ->
  grab_all self w =
  match get_api_docs self w with
  | (Raise e, w1) => (Raise e, w1)
  | (Ok data, w1) =>
      match contains_op SWAGGER_APIS data with
      | Raise e => (Raise e, w1)
      | Ok false => (Raise (PrinterError "No apis information found in api-docs"), w1)
      | Ok true =>
          match contains_op SWAGGER_APIVERSION data with
          | Raise e => (Raise e, w1)
          | Ok false => (Raise (PrinterError "No api version found in api-docs"), w1)
          | Ok true => grab_resources self data w1
          end
      end
  end.
Proof.
  intros Hv. unfold grab_all, bind, lift, raiseError, raise, ret. rewrite Hv.
  destruct (get_api_docs self w) as [[data|e] w1]; [|done].
  destruct (contains_op SWAGGER_APIS data) as [[|]|e]; try done.
  by destruct (contains_op SWAGGER_APIVERSION data) as [[|]|e].
Qed.

(** The parser that [grab_resources] hands back is the one it was given. *)
Lemma grab_resources_parser (self self' : P) (data : json) (models : ResourceMap)
    (w w' : World) :
  grab_resources self data w = (Ok (self', models), w') -> self' = self.
Proof.
  unfold grab_resources, bind, lift, ret.
  destruct (try! apis := getitem data SWAGGER_APIS in py_iter apis) as [apis|e];
    [|done].
  destruct (start_tasks self apis TaskManager.new ∅ w) as [[[tm ms]|e] w2]; [|done].
  destruct (TaskManager.wait_until_exit tm w2) as [[u|e] w3]; [|done].
  by intros [= -> _ _].
Qed.

(** C6, as the code has it.  When the caller supplied a version, the
    resolver plays no part in the run (whatever the resolver is, the run is
    the same) and the parser keeps the supplied version; the remote
    transport builds every per-resource path from it.  When no version was
    supplied, the version is resolved from the root document's [apiVersion]
    and assigned to the parser once: the whole rest of the run is carried
    out by the parser holding that version, which is also the parser the run
    hands back.  The per-resource paths of the local transport do not depend
    on the version the parser holds. *)
Theorem version_fixed_once (self : P) (w : World) :
  (forall (v : string) (resolver resolver' : Utils),
     apiversion self = Some v ->
     grab_all (resolver := resolver) self w = grab_all (resolver := resolver') self w /\
     forall self' models w',
       grab_all (resolver := resolver) self w = (Ok (self', models), w') -> self' = self) /\
  (forall (resolver : Utils) (data raw : json) (v : string) (w1 : World),
     apiversion self = None ->
     get_api_docs self w = (Ok data, w1) ->
     contains_op SWAGGER_APIS data = Ok true ->
     getitem data SWAGGER_APIVERSION = Ok raw ->
     get_version raw = Ok v ->
     grab_all (resolver := resolver) self w = grab_resources (set_apiversion v self) data w1 /\
     forall self' models w',
       grab_all (resolver := resolver) self w = (Ok (self', models), w') ->
       self' = set_apiversion v self) /\
  (forall (u v p : string) (remote : SwaggerURLParser.t) (w0 : World),
     SwaggerURLParser.__init__ u (Some v) w0 = (Ok remote, w0) ->
     SwaggerURLParser.path_for_swagger_model remote (JStr p)
     = Ok (u ++ "V" ++ str_map dot_to_underscore v ++ "/schema" ++ p)) /\
  (forall (fmt : Formatter) (local : SwaggerFileParser.t) (v : string) (p : json),
     SwaggerFileParser.path_for_swagger_model (SwaggerFileParser.set_apiversion v local) p
     = SwaggerFileParser.path_for_swagger_model local p).
Proof.
  split; [|split; [|split]].
  - intros v resolver resolver' Hv. split.
    + by rewrite !(grab_all_pinned self v w Hv).
    + intros self' models w'. rewrite (grab_all_pinned self v w Hv).
      destruct (get_api_docs self w) as [[data|e] w1]; [|done].
      destruct (contains_op SWAGGER_APIS data) as [[|]|e]; try done.
      destruct (contains_op SWAGGER_APIVERSION data) as [[|]|e]; try done.
      apply grab_resources_parser.
  - intros resolver data raw v w1 Hnone Hroot Hapis Hraw Hv.
    assert (grab_all self w = grab_resources (set_apiversion v self) data w1) as Hrun.
    { unfold grab_all, bind, lift, raiseError, raise, ret.
      rewrite Hroot, Hapis, Hnone, Hraw. cbn [negb rbind]. rewrite Hv.
      assert (contains_op SWAGGER_APIVERSION data = Ok true) as ->; [|done].
      destruct data; try done. cbn in Hraw |- *.
      by destruct (dict_get SWAGGER_APIVERSION d). }
    split; [exact Hrun|]. intros self' models w'. rewrite Hrun.
    apply grab_resources_parser.
  - intros u v p remote w0 [= <-]. cbn [SwaggerURLParser.path_for_swagger_model
      SwaggerURLParser.base_path].
    by rewrite str_replace_dots, !append_assoc.
  - done.
Qed.
End Driver.

Lemma version_fixed_once_witness :
  grab_all (transport := @SwaggerFileParser_parser Sample.formatter) (resolver := Sample.utils)
    Sample.local_parser Sample.world
  = grab_resources (transport := @SwaggerFileParser_parser Sample.formatter)
      (SwaggerFileParser.set_apiversion "3.0" Sample.local_parser) Sample.root_doc
      (snd (SwaggerFileParser.get_api_docs Sample.local_parser Sample.world)) /\
  forall self' models w',
    grab_all (transport := @SwaggerFileParser_parser Sample.formatter) (resolver := Sample.utils)
      Sample.local_parser Sample.world = (Ok (self', models), w') ->
    self' = SwaggerFileParser.set_apiversion "3.0" Sample.local_parser.
Proof.
  apply (proj1 (proj2 (version_fixed_once
                         (transport := @SwaggerFileParser_parser Sample.formatter)
                         Sample.local_parser Sample.world))
           Sample.utils Sample.root_doc (JStr "3.0") "3.0" _); reflexivity.
Defined.

(** C6, as the claim words it, fails: the resolved version does not enter
    the per-resource paths.  Two runs of the local transport over root
    documents that differ in [apiVersion] only hand back parsers holding
    different versions, and compute the same paths and touch the same
    files. *)
Lemma resolved_version_not_in_paths :
  (exists models,
     fst (grab_all (transport := @SwaggerFileParser_parser Sample.formatter)
            (resolver := Sample.utils) Sample.local_parser
            (Sample.world_of (Sample.root_with "3.0")))
     = Ok (SwaggerFileParser.set_apiversion "3.0" Sample.local_parser, models)) /\
  (exists models,
     fst (grab_all (transport := @SwaggerFileParser_parser Sample.formatter)
            (resolver := Sample.utils) Sample.local_parser
            (Sample.world_of (Sample.root_with "4.0")))
     = Ok (SwaggerFileParser.set_apiversion "4.0" Sample.local_parser, models)) /\
  trace (snd (grab_all (transport := @SwaggerFileParser_parser Sample.formatter)
                (resolver := Sample.utils) Sample.local_parser
                (Sample.world_of (Sample.root_with "3.0"))))
  = trace (snd (grab_all (transport := @SwaggerFileParser_parser Sample.formatter)
                  (resolver := Sample.utils) Sample.local_parser
                  (Sample.world_of (Sample.root_with "4.0")))) /\
  SwaggerFileParser.path_for_swagger_model (fmt := Sample.formatter)
    (SwaggerFileParser.set_apiversion "3.0" Sample.local_parser) (JStr "/v1/foo")
  = Ok "/x/v1/foo" /\
  SwaggerFileParser.path_for_swagger_model (fmt := Sample.formatter)
    (SwaggerFileParser.set_apiversion "4.0" Sample.local_parser) (JStr "/v1/foo")
  = Ok "/x/v1/foo".
Proof.
  split; [eexists; vm_compute; reflexivity|].
  split; [eexists; vm_compute; reflexivity|].
  repeat split; vm_compute; reflexivity.
Qed.

(** The whole run on the sample: four entries, the three of the split and
    the one of the other resource, and six accesses to the disk after the
    two for the root document. *)
Example sample_run :
  exists models,
    fst (grab_all (transport := @SwaggerFileParser_parser Sample.formatter)
           (resolver := Sample.utils) Sample.local_parser Sample.world)
    = Ok (SwaggerFileParser.set_apiversion "3.0" Sample.local_parser, models) /\
    dom models = {["Metadata"; "GlobalMetadata"; "AggregateMetadata"; "foo"]} /\
    trace (snd (grab_all (transport := @SwaggerFileParser_parser Sample.formatter)
                  (resolver := Sample.utils) Sample.local_parser Sample.world))
    = [IsFile "/x/api-docs"; LoadFile "/x/api-docs";
       IsFile "/x/v1/Metadata"; LoadFile "/x/v1/Metadata";
       IsFile "/x/v1/foo"; LoadFile "/x/v1/foo"].
Proof.
  eexists. split; [vm_compute; reflexivity|]. split; vm_compute; reflexivity.
Qed.

Lemma root_document_missing_key_witness :
  exists message,
    grab_all (transport := @SwaggerFileParser_parser Sample.formatter) (resolver := Sample.utils)
      Sample.local_parser (Sample.world_of (JDict [("apis", JList [])]))
    = (Raise (PrinterError message),
       snd (SwaggerFileParser.get_api_docs Sample.local_parser
              (Sample.world_of (JDict [("apis", JList [])])))) /\
    (message = "No apis information found in api-docs" \/
     message = "No api version found in api-docs").
Proof.
  apply (root_document_missing_key
           (transport := @SwaggerFileParser_parser Sample.formatter) (resolver := Sample.utils)
           Sample.local_parser (Sample.world_of (JDict [("apis", JList [])])) _
           [("apis", JList [])]); [reflexivity | right; reflexivity].
Defined.

(** ** The remote transport *)

Lemma gets_of_log (url : string) (w : World) :
  gets_of url (log (HttpGet url) w) = S (gets_of url w).
Proof.
  unfold gets_of, log. cbn [trace]. rewrite filter_app, length_app.
  rewrite filter_cons_True by done. cbn. lia.
Qed.

Lemma requests_get_again (url : string) (w : World) :
  requests_get url (log (HttpGet url) w) =
  (outcome_result (server w url (S (gets_of url w))),
   log (HttpGet url) (log (HttpGet url) w)).
Proof. unfold requests_get. by rewrite gets_of_log. Qed.

(** The request of [get_swagger_model] with its [except SSLError] clause. *)
Lemma retry_run (path : string) (w : World) :
  try_except (requests_get path) SwaggerURLParser.is_SSLError
    (fun _ => requests_get path) w =
  match server w path (gets_of path w) with
  | HandshakeFailure =>
      (outcome_result (server w path (S (gets_of path w))),
       log (HttpGet path) (log (HttpGet path) w))
  | o => (outcome_result o, log (HttpGet path) w)
  end.
Proof.
  unfold try_except. unfold requests_get at 1.
  destruct (server w path (gets_of path w)); cbn; try done.
  apply requests_get_again.
Qed.

(** C7. The per-resource fetch of the remote transport repeats its request
    once, and only once, when the first attempt fails in the handshake: if
    the second attempt is answered, its answer is the result; if the second
    attempt fails too, in the handshake or otherwise, that failure is
    surfaced after two requests; a first failure that is not a handshake
    failure is surfaced after one request; a first answer needs no second
    request. *)
Theorem handshake_retried_once (self : SwaggerURLParser.t)
    (path resource_name : string) (w : World) :
  let n := gets_of path w in
  let once := log (HttpGet path) w in
  let twice := log (HttpGet path) once in
  (forall data,
     server w path n = HandshakeFailure ->
     server w path (S n) = Response 200 (Some data) ->
     SwaggerURLParser.get_swagger_model self path resource_name w = (Ok data, twice)) /\
  (server w path n = HandshakeFailure ->
   server w path (S n) = HandshakeFailure ->
   SwaggerURLParser.get_swagger_model self path resource_name w
   = (Raise SSLError, twice)) /\
  (forall cause,
     server w path n = HandshakeFailure ->
     server w path (S n) = TransportFailure cause ->
     SwaggerURLParser.get_swagger_model self path resource_name w
     = (Raise (RequestException cause), twice)) /\
  (forall cause,
     server w path n = TransportFailure cause ->
     SwaggerURLParser.get_swagger_model self path resource_name w
     = (Raise (RequestException cause), once)) /\
  (forall data,
     server w path n = Response 200 (Some data) ->
     SwaggerURLParser.get_swagger_model self path resource_name w = (Ok data, once)).
Proof.
  intros n once twice.
  unfold SwaggerURLParser.get_swagger_model, bind.
  rewrite retry_run. fold n. fold once. fold twice.
  repeat split.
  - by intros data -> ->.
  - by intros -> ->.
  - by intros cause -> ->.
  - by intros cause ->.
  - by intros data ->.
Qed.

Lemma handshake_retried_once_witness :
  SwaggerURLParser.get_swagger_model SampleRemote.remote_parser
    "http://h/V3_0/schema/v1/Metadata" "Metadata" SampleRemote.flaky_world
  = (Ok Sample.metadata_doc,
     log (HttpGet "http://h/V3_0/schema/v1/Metadata")
       (log (HttpGet "http://h/V3_0/schema/v1/Metadata") SampleRemote.flaky_world)).
Proof.
  apply (proj1 (handshake_retried_once SampleRemote.remote_parser
                  "http://h/V3_0/schema/v1/Metadata" "Metadata"
                  SampleRemote.flaky_world)); reflexivity.
Defined.

(** The root fetch of the remote transport is one request, whatever its
    outcome. *)
Lemma get_api_docs_one_request (self : SwaggerURLParser.t) (w : World) :
  snd (SwaggerURLParser.get_api_docs self w)
  = log (HttpGet (SwaggerURLParser.schema_url self)) w.
Proof.
  unfold SwaggerURLParser.get_api_docs, bind, requests_get.
  destruct (server w _ _) as [| cause | status body]; cbn; try done.
  destruct (negb (status =? 200)); [done|]. by destruct body.
Qed.

(** C8, as the code has it.  For a base URL [u] and a version [v], the root
    document is requested by one GET of [u ++ "V" ++ v' ++ "/schema/api-docs"],
    where [v'] is [v] with every dot turned into an underscore: the base URL
    is taken as it is, no "/" is put between it and the "V".  An answer
    whose status is not 200 makes discovery fail with an error that carries
    the status and that URL, and the request of the root document is the
    only request of the run. *)
Theorem root_document_request (u v : string) (w : World) (resolver : Utils)
    (status : Z) (body : option json) :
  let root_url := u ++ "V" ++ str_map dot_to_underscore v ++ "/schema/api-docs" in
  server w root_url (gets_of root_url w) = Response status body ->
  status <> 200 ->
  exists self,
    SwaggerURLParser.__init__ u (Some v) w = (Ok self, w) /\
    SwaggerURLParser.schema_url self = root_url /\
    snd (SwaggerURLParser.get_api_docs self w) = log (HttpGet root_url) w /\
    grab_all (resolver := resolver) self w =
    (Raise (PrinterError ("[HTTP " ++ pretty status ++ "] Could not access " ++ root_url)),
     log (HttpGet root_url) w).
Proof.
  intros root_url Hanswer Hstatus.
  eexists. split; [reflexivity|].
  assert (SwaggerURLParser.schema_url
            (SwaggerURLParser.mk u (Some v) (u ++ "V" ++ str_replace "." "_" v)
               ((u ++ "V" ++ str_replace "." "_" v) ++ SCHEMA_FILEPATH ++ ENTRY_POINT))
          = root_url) as Hurl.
  { cbn [SwaggerURLParser.schema_url]. unfold root_url.
    rewrite str_replace_dots, !append_assoc. reflexivity. }
  split; [exact Hurl|].
  split; [by rewrite get_api_docs_one_request, Hurl|].
  unfold grab_all, bind. cbn [get_api_docs SwaggerURLParser_parser].
  unfold SwaggerURLParser.get_api_docs, bind, requests_get.
  rewrite Hurl, Hanswer. cbn [outcome_result].
  apply Z.eqb_neq in Hstatus as ->. reflexivity.
Qed.

Lemma root_document_request_witness :
  exists self,
    SwaggerURLParser.__init__ "http://h/" (Some "3.0") SampleRemote.lost_world
    = (Ok self, SampleRemote.lost_world) /\
    SwaggerURLParser.schema_url self = "http://h/V3_0/schema/api-docs" /\
    snd (SwaggerURLParser.get_api_docs self SampleRemote.lost_world)
    = log (HttpGet "http://h/V3_0/schema/api-docs") SampleRemote.lost_world /\
    grab_all (resolver := Sample.utils) self SampleRemote.lost_world =
    (Raise (PrinterError "[HTTP 404] Could not access http://h/V3_0/schema/api-docs"),
     log (HttpGet "http://h/V3_0/schema/api-docs") SampleRemote.lost_world).
Proof.
  apply (root_document_request "http://h/" "3.0" SampleRemote.lost_world
           Sample.utils 404 None); [reflexivity | discriminate].
Defined.

(** C8, as the claim words it, fails: with base URL "http://h" and version
    "3.0" the request goes to "http://hV3_0/schema/api-docs", which is not
    "http://h" followed by "/V3_0/schema/api-docs". *)
Lemma root_url_without_slash :
  exists self,
    SwaggerURLParser.__init__ "http://h" (Some "3.0") SampleRemote.lost_world
    = (Ok self, SampleRemote.lost_world) /\
    trace (snd (SwaggerURLParser.get_api_docs self SampleRemote.lost_world))
    = [HttpGet "http://hV3_0/schema/api-docs"] /\
    trace (snd (SwaggerURLParser.get_api_docs self SampleRemote.lost_world))
    <> [HttpGet ("http://h" ++ "/V" ++ str_map dot_to_underscore "3.0"
                 ++ "/schema/api-docs")].
Proof.
  eexists. split; [reflexivity|]. split; [reflexivity|]. discriminate.
Qed.

(** ** Construction and the local transport *)

(** C9. The remote transport cannot be built without a version: the
    constructor fails, telling the caller to give one with [-v].  The local
    transport is built without one, and a missing version constrains
    nothing: none of its operations depends on the version. *)
Theorem construction_contract :
  (forall url w,
     SwaggerURLParser.__init__ url None w
     = (Raise (PrinterError "Please specify your apiversion using -v option"), w)) /\
  (forall path,
     SwaggerFileParser.apiversion (SwaggerFileParser.__init__ path None) = None /\
     SwaggerFileParser.path (SwaggerFileParser.__init__ path None) = path) /\
  (forall (fmt : Formatter) path v,
     let unversioned := SwaggerFileParser.__init__ path None in
     let versioned := SwaggerFileParser.__init__ path (Some v) in
     (forall p, SwaggerFileParser.path_for_swagger_model unversioned p
                = SwaggerFileParser.path_for_swagger_model versioned p) /\
     (forall p, SwaggerFileParser.get_information unversioned p
                = SwaggerFileParser.get_information versioned p) /\
     SwaggerFileParser.get_api_docs unversioned
     = SwaggerFileParser.get_api_docs versioned /\
     (forall p name, SwaggerFileParser.get_swagger_model unversioned p name
                     = SwaggerFileParser.get_swagger_model versioned p name)).
Proof. by repeat split. Qed.


(** C5. The local transport with root "/x" turns the entry path "/v1/foo"
    into "/x/v1/foo" followed by the extension, which the constructor sets
    to the empty text, and [get_information] reads ("/v1", "foo") back from
    that path. *)
Theorem local_path_example {fmt : Formatter} (v : option string) :
  let self := SwaggerFileParser.__init__ "/x" v in
  path_for_swagger_model self (JStr "/v1/foo")
  = Ok ("/x/v1/foo" ++ SwaggerFileParser.extension self) /\
  SwaggerFileParser.extension self = "" /\
  resource_path self (JDict [("path", JStr "/v1/foo")]) = Ok "/x/v1/foo" /\
  get_information self "/x/v1/foo" = Ok ["/v1"; "foo"] /\
  information_pair self "/x/v1/foo" = Ok ("/v1", "foo").
Proof. by repeat split. Qed.

(** ** The shape the split presupposes *)

Lemma entry_ok_has_path (api : json) : entry_ok api = true -> has_path api = true.
Proof.
  unfold entry_ok, has_path, path_test.
  by destruct (getitem api "path").
Qed.

(** With its [path] in place, an entry can only fail the [in] test. *)
Lemma has_path_not_ok (api : json) :
  has_path api = true -> entry_ok api = false ->
  exists p, getitem api "path" = Ok p /\
            contains_op "/aggregatemetadatas" p = Raise TypeError.
Proof.
  unfold entry_ok, has_path, path_test.
  destruct (getitem api "path") as [p|e]; [|done].
  intros _. exists p. split; [done|]. by destruct p.
Qed.

Lemma split_loop_fail_test (apis : list json) :
  forall (dm dg da : list (string * json)) (lm lg la : list json),
  forallb has_path apis = true ->
  forallb entry_ok apis = false ->
  split_loop (with_apis dm lm, with_apis dg lg, with_apis da la) apis
  = Raise TypeError /\
  exists api p, In api apis /\ getitem api "path" = Ok p /\
                contains_op "/aggregatemetadatas" p = Raise TypeError.
Proof.
  induction apis as [|api rest IH]; intros dm dg da lm lg la Hpaths Hall; [done|].
  cbn [forallb] in Hpaths, Hall. apply andb_true_iff in Hpaths as [Hp Hrest].
  cbn [split_loop]. destruct (entry_ok api) eqn:Hapi.
  - rewrite (split_step_ok _ _ _ _ _ _ _ Hapi). cbn [rbind].
    destruct (IH dm dg da (lm ++ List.filter to_metadata [api])%list
                (lg ++ List.filter to_global [api])%list
                (la ++ List.filter to_aggregate [api])%list Hrest Hall)
      as (Hrun & api' & p & Hin & Hget & Htest).
    split; [exact Hrun|]. exists api', p. by repeat split; [right|..].
  - destruct (has_path_not_ok api Hp Hapi) as (p & Hget & Htest).
    split.
    + unfold split_step. by rewrite Hget; cbn [rbind]; rewrite Htest.
    + exists api, p. by repeat split; [left|..].
Qed.

(** Outside the presupposed shape, the split goes through only over an
    [apis] with nothing to visit. *)
Lemma split_ready_outside_shape (infos : json) :
  metadata_shape infos = false ->
  split_ready infos = models_ok infos && empty_apis infos.
Proof.
  unfold metadata_shape, split_ready, empty_apis, apis_entries.
  destruct (models_ok infos); [|done]. cbn [andb].
  destruct (getitem infos "apis") as [a|e]; [|done]. cbn [rbind].
  destruct a as [| | | | s | l | d]; try done.
  - intros _. by destruct s.
  - intros Hpaths. cbn [py_iter].
    destruct (forallb entry_ok l) eqn:Hall; [|done].
    rewrite <- Hpaths. symmetry. apply forallb_forall. intros api Hin.
    apply entry_ok_has_path. by apply (proj1 (forallb_forall _ _) Hall).
  - intros _. by destruct d.
Qed.

Lemma metadata_shape_entries (infos : json) :
  metadata_shape infos = true ->
  exists l, apis_entries infos = Ok l /\ forallb has_path l = true /\
            models_ok infos = true.
Proof.
  unfold metadata_shape, apis_entries. intros H.
  apply andb_true_iff in H as [Hm Ha].
  destruct (getitem infos "apis") as [[| | | | | l |]|]; try done.
  by exists l.
Qed.

(** A task that raises leaves its mark on the task manager, later tasks do
    not erase it, and the join point raises. *)
Lemma failure_is_noted (tm : TaskManager.t) (e : exn) :
  TaskManager.first_failure (TaskManager.note_failure e tm) <> None.
Proof.
  unfold TaskManager.note_failure.
  destruct (TaskManager.first_failure tm) as [e'|] eqn:E; [by rewrite E | done].
Qed.

Lemma wait_raises (tm : TaskManager.t) (w : World) :
  TaskManager.first_failure tm <> None ->
  exists e, TaskManager.wait_until_exit tm w = (Raise e, w).
Proof.
  unfold TaskManager.wait_until_exit.
  destruct (TaskManager.first_failure tm) as [e|]; [|done]. by exists e.
Qed.

Lemma metadata_shape_text_ready (infos : json) :
  metadata_shape_text infos = true -> split_ready infos = true.
Proof.
  unfold metadata_shape_text, split_ready, apis_entries. intros H.
  apply andb_true_iff in H as [-> Ha]. cbn [andb].
  destruct (getitem infos "apis") as [[| | | | | l |]|]; try done.
  cbn [rbind py_iter]. apply forallb_forall. intros api Hin.
  pose proof (proj1 (forallb_forall _ _) Ha api Hin) as Ht.
  unfold has_text_path in Ht. unfold entry_ok, path_test.
  by destruct (getitem api "path") as [[]|].
Qed.

Section Shape.
Context {P : Type} {transport : AbstractSwaggerParser P}.

Lemma start_tasks_keep_failure (self : P) (apis : list json) :
  forall (tm tm' : TaskManager.t) (models models' : ResourceMap) (w w' : World),
  TaskManager.first_failure tm <> None ->
  start_tasks self apis tm models w = (Ok (tm', models'), w') ->
  TaskManager.first_failure tm' <> None.
Proof.
  induction apis as [|api rest IH]; intros tm tm' models models' w w' Hf.
  - by intros [= <- _ _].
  - cbn [start_tasks]. unfold bind, lift, TaskManager.start_task.
    destruct (resource_path self api) as [path|e]; [|done].
    destruct (_grab_resource self path models w) as [[r|e] w1].
    + by apply IH.
    + apply IH. apply failure_is_noted.
Qed.

(** A task that raises makes the run fail: whatever tasks are started
    after it, the join point raises. *)
Lemma failed_task_aborts (self : P) (path : string) (results : ResourceMap)
    (w w1 : World) (e : exn) (tm : TaskManager.t) :
  _grab_resource self path results w = (Raise e, w1) ->
  exists tm1,
    TaskManager.start_task tm (_grab_resource self path) results w
    = (Ok (tm1, results), w1) /\
    forall rest tm2 results2 w2,
      start_tasks self rest tm1 results w1 = (Ok (tm2, results2), w2) ->
      exists e', TaskManager.wait_until_exit tm2 w2 = (Raise e', w2).
Proof.
  intros Hfail. exists (TaskManager.note_failure e tm). split.
  - unfold TaskManager.start_task. by rewrite Hfail.
  - intros rest tm2 results2 w2 Hrest. apply wait_raises.
    eapply start_tasks_keep_failure; [|exact Hrest]. apply failure_is_noted.
Qed.

(** C10, as the code has it.  For a document fetched under the name
    "Metadata":
    - when it has the presupposed shape (a [models] dict holding a
      [Metadata] dict, an [apis] list whose every entry is a dict with a
      [path]), no lookup of the split fails: the task succeeds, or the
      [in] test raises TypeError on a [path] that is neither a text, a
      list nor a dict;
    - when moreover every [path] is a text, the task succeeds;
    - when it has not the presupposed shape, the task raises KeyError for
      a missing key or TypeError for a value of the wrong kind, and the
      join point of the run raises -- except over a well-formed [models]
      with an [apis] that is an empty text or an empty dict, where the
      loop has nothing to visit and the task succeeds. *)
Theorem metadata_shape_precondition (self : P) (path package : string)
    (results : ResourceMap) (w w1 : World) (infos : json) :
  information_pair self path = Ok (package, "Metadata") ->
  get_swagger_model self path "Metadata" w = (Ok infos, w1) ->
  (metadata_shape infos = true ->
     (exists results', _grab_resource self path results w = (Ok results', w1)) \/
     (_grab_resource self path results w = (Raise TypeError, w1) /\
      exists entries api p,
        apis_entries infos = Ok entries /\ In api entries /\
        getitem api "path" = Ok p /\
        contains_op "/aggregatemetadatas" p = Raise TypeError)) /\
  (metadata_shape_text infos = true ->
     exists results', _grab_resource self path results w = (Ok results', w1)) /\
  (metadata_shape infos = false ->
     if models_ok infos && empty_apis infos
     then exists results', _grab_resource self path results w = (Ok results', w1)
     else exists e,
            _grab_resource self path results w = (Raise e, w1) /\
            split_failure e /\
            forall tm, exists tm1,
              TaskManager.start_task tm (_grab_resource self path) results w
              = (Ok (tm1, results), w1) /\
              forall rest tm2 results2 w2,
                start_tasks self rest tm1 results w1 = (Ok (tm2, results2), w2) ->
                exists e', TaskManager.wait_until_exit tm2 w2 = (Raise e', w2)).
Proof.
  intros Hinfo Hfetch.
  assert (split_ready infos = true ->
          exists results', _grab_resource self path results w = (Ok results', w1))
    as Hgood.
  { intros Hready.
    destruct (grab_metadata_run self path package results w w1 infos
                Hinfo Hfetch Hready) as (d & dmod & dmeta & entries & _ & _ & _ & _ & Hrun).
    eexists. exact Hrun. }
  assert (forall e, split_metadata infos package = Raise e ->
                    _grab_resource self path results w = (Raise e, w1)) as Hbad.
  { intros e He. rewrite grab_resource_run, Hinfo, Hfetch.
    change ("Metadata" =? "Metadata")%string with true. cbn iota. by rewrite He. }
  split; [|split].
  - intros Hshape. destruct (split_ready infos) eqn:Hready; [left; by apply Hgood|].
    right. destruct (metadata_shape_entries infos Hshape) as (l & Hl & Hpaths & Hm).
    unfold split_ready in Hready. rewrite Hm, Hl in Hready. cbn [andb] in Hready.
    assert (split_metadata infos package = Raise TypeError /\
            exists api p, In api l /\ getitem api "path" = Ok p /\
                          contains_op "/aggregatemetadatas" p = Raise TypeError)
      as [Hsplit (api & p & Hin & Hget & Htest)].
    { unfold models_ok in Hm. destruct infos as [| | | | | |d]; try done.
      cbn in Hm.
      destruct (dict_get "models" d) as [[| | | | | |dmod]|] eqn:Em; try done.
      destruct (dict_get "Metadata" dmod) as [[| | | | | |dmeta]|] eqn:Ed; try done.
      unfold split_metadata. rewrite deepcopy_id. cbn [setitem rbind].
      rewrite !(set_model_id_cleared d dmod dmeta _ Em Ed). cbn [rbind]. unfold apis_entries in Hl.
      destruct (getitem (JDict d) "apis") as [a|]; cbn [rbind] in Hl |- *; [|done].
      rewrite Hl. cbn [rbind].
      pose proof (fun dm dg da => split_loop_fail_test l dm dg da [] [] [] Hpaths Hready)
        as Hloop.
      edestruct Hloop as (Hrun & Hwho). rewrite Hrun. by split. }
    split; [by apply Hbad|]. by exists l, api, p.
  - intros Htext. by apply Hgood, metadata_shape_text_ready.
  - intros Hshape. rewrite <- (split_ready_outside_shape infos Hshape).
    destruct (split_ready infos) eqn:Hready; [by apply Hgood|].
    destruct (split_metadata_fail infos package Hready) as (e & He & Hkind).
    exists e. split; [by apply Hbad|]. split; [exact Hkind|].
    intros tm. apply (failed_task_aborts self path results w w1 e tm).
    by apply Hbad.
Qed.
End Shape.

Lemma metadata_shape_precondition_witness :
  let task := _grab_resource (transport := @SwaggerFileParser_parser Sample.formatter)
                Sample.local_parser "/x/v1/Metadata" in
  let w := Sample.bare_world in
  let w1 := snd (SwaggerFileParser.get_swagger_model Sample.local_parser
                   "/x/v1/Metadata" "Metadata" Sample.bare_world) in
  let infos := Sample.bare_doc in
  (metadata_shape infos = true ->
     (exists results', task ∅ w = (Ok results', w1)) \/
     (task ∅ w = (Raise TypeError, w1) /\
      exists entries api p,
        apis_entries infos = Ok entries /\ In api entries /\
        getitem api "path" = Ok p /\
        contains_op "/aggregatemetadatas" p = Raise TypeError)) /\
  (metadata_shape_text infos = true ->
     exists results', task ∅ w = (Ok results', w1)) /\
  (metadata_shape infos = false ->
     if models_ok infos && empty_apis infos
     then exists results', task ∅ w = (Ok results', w1)
     else exists e,
            task ∅ w = (Raise e, w1) /\
            split_failure e /\
            forall tm, exists tm1,
              TaskManager.start_task tm task ∅ w = (Ok (tm1, ∅), w1) /\
              forall rest tm2 results2 w2,
                start_tasks (transport := @SwaggerFileParser_parser Sample.formatter)
                  Sample.local_parser rest tm1 ∅ w1 = (Ok (tm2, results2), w2) ->
                exists e', TaskManager.wait_until_exit tm2 w2 = (Raise e', w2)).
Proof.
  apply (metadata_shape_precondition (transport := @SwaggerFileParser_parser Sample.formatter)
           Sample.local_parser "/x/v1/Metadata" "/v1" ∅ Sample.bare_world _
           Sample.bare_doc); reflexivity.
Defined.

(** C10, as the claim words it, fails: a document whose [apis] is an empty
    dict has not the presupposed shape, and the task on it succeeds. *)
Lemma loose_apis_accepted :
  information_pair (transport := @SwaggerFileParser_parser Sample.formatter)
    Sample.local_parser "/x/v1/Metadata" = Ok ("/v1", "Metadata") /\
  fst (SwaggerFileParser.get_swagger_model Sample.local_parser
         "/x/v1/Metadata" "Metadata" Sample.loose_world) = Ok Sample.loose_doc /\
  metadata_shape Sample.loose_doc = false /\
  is_ok (fst (_grab_resource (transport := @SwaggerFileParser_parser Sample.formatter)
                Sample.local_parser "/x/v1/Metadata" ∅ Sample.loose_world)) = true.
Proof. repeat split; vm_compute; reflexivity. Qed.

(** A [path] that is a number passes every lookup and fails the [in] test. *)
Example numeric_path_rejected :
  metadata_shape Sample.numeric_doc = true /\
  split_metadata Sample.numeric_doc "/v1" = Raise TypeError.
Proof. by split. Qed.

(** A document without [models] raises the KeyError of the missing key. *)
Example missing_models_rejected :
  metadata_shape Sample.bare_doc = false /\
  fst (_grab_resource (transport := @SwaggerFileParser_parser Sample.formatter)
         Sample.local_parser "/x/v1/Metadata" ∅ Sample.bare_world)
  = Raise (KeyError "models").
Proof. by split. Qed.

(** * Further properties of the parsers *)

(** ** Which transport the factory builds *)

(** X12. A path that is given and not empty selects the local transport,
    whatever the URL and the version: the factory then cannot fail and
    touches nothing.  Without such a path the factory builds the remote
    transport, so it fails when no version is given and otherwise hands
    back the parser whose root URL is made of the URL text, "V", the
    version with its dots turned into underscores, and "/schema/api-docs". *)
Theorem factory_selection (url path apiversion : option string) (w : World) :
  (SwaggerParserFactory.truthy path = true ->
   exists p, path = Some p /\
     SwaggerParserFactory.create url path apiversion w
     = (Ok (inl (SwaggerFileParser.__init__ p apiversion)), w)) /\
  (SwaggerParserFactory.truthy path = false ->
   apiversion = None ->
   SwaggerParserFactory.create url path apiversion w
   = (Raise (PrinterError "Please specify your apiversion using -v option"), w)) /\
  (forall v,
     SwaggerParserFactory.truthy path = false ->
     apiversion = Some v ->
     exists remote,
       SwaggerParserFactory.create url path apiversion w = (Ok (inr remote), w) /\
       SwaggerURLParser.schema_url remote
       = SwaggerParserFactory.url_text url ++ "V" ++ str_map dot_to_underscore v
         ++ "/schema/api-docs").
Proof.
  split; [|split].
  - destruct path as [[|c p]|]; try done. intros _. by eexists.
  - intros Hpath ->. by destruct path as [[|c p]|].
  - intros v Hpath ->. eexists. split.
    + by destruct path as [[|c p]|].
    + cbn [SwaggerURLParser.schema_url].
      by rewrite str_replace_dots, !append_assoc.
Qed.

Lemma factory_selection_witness :
  (exists p, Some "/x" = Some p /\
     SwaggerParserFactory.create (Some "http://h/") (Some "/x") None Sample.world
     = (Ok (inl (SwaggerFileParser.__init__ p None)), Sample.world)) /\
  SwaggerParserFactory.create None (Some "") None Sample.world
  = (Raise (PrinterError "Please specify your apiversion using -v option"),
     Sample.world) /\
  (exists remote,
     SwaggerParserFactory.create (Some "http://h/") None (Some "3.0") Sample.world
     = (Ok (inr remote), Sample.world) /\
     SwaggerURLParser.schema_url remote
     = SwaggerParserFactory.url_text (Some "http://h/") ++ "V"
       ++ str_map dot_to_underscore "3.0" ++ "/schema/api-docs").
Proof.
  split; [|split].
  - apply (proj1 (factory_selection (Some "http://h/") (Some "/x") None Sample.world)).
    reflexivity.
  - apply (proj1 (proj2 (factory_selection None (Some "") None Sample.world)));
      reflexivity.
  - apply (proj2 (proj2 (factory_selection (Some "http://h/") None (Some "3.0")
                           Sample.world)) "3.0"); reflexivity.
Defined.

(** ** Reading a path back *)

Lemma prefix_empty (s : string) : String.prefix "" s = true.
Proof. by destruct s. Qed.

(** A text that starts with [t] even when followed by a character foreign to
    [t] starts with [t] on its own. *)
Lemma prefix_before_char (h : ascii) (t : string) :
  forall x r : string,
  char_in h t = false ->
  String.prefix t (x ++ String h r) = true -> String.prefix t x = true.
Proof.
  induction t as [|t0 t IH]; intros x r Hh Hp; [apply prefix_empty|].
  cbn [char_in] in Hh. apply orb_false_iff in Hh as [Ht0 Hh].
  destruct x as [|c x].
  - change ("" ++ String h r) with (String h r) in Hp. rewrite prefix_cons in Hp.
    destruct (ascii_dec t0 h) as [->|]; [|done].
    by rewrite Ascii.eqb_refl in Ht0.
  - rewrite append_cons, prefix_cons in Hp. rewrite prefix_cons.
    destruct (ascii_dec t0 c); [|done]. by apply (IH x r).
Qed.

(** Splitting at a separator whose first character does not come back in
    it: what stands before the first separator, when it does not contain
    the separator, is the first piece. *)
Lemma split_go_marker (h : ascii) (t a b : string) :
  char_in h t = false ->
  str_contains (String h t) a = false ->
  split_go (String h t) 0 (a ++ String h t ++ b)
  = a :: split_go (String h t) 0 b.
Proof.
  intros Hh. induction a as [|c a IH]; intros Ha.
  - change ("" ++ String h t ++ b) with (String h t ++ b).
    by apply split_go_leading.
  - rewrite str_contains_cons in Ha. apply orb_false_iff in Ha as [Hp Ha].
    rewrite append_cons, split_go_cons.
    assert (String.prefix (String h t) (String c (a ++ String h t ++ b)) = false) as ->.
    { destruct (String.prefix (String h t) (String c (a ++ String h t ++ b))) eqn:E;
        [|done].
      rewrite prefix_cons in E, Hp. destruct (ascii_dec h c); [|done].
      rewrite append_cons in E. by rewrite (prefix_before_char h t a _ Hh E) in Hp. }
    by rewrite (IH Ha).
Qed.

(** The two pieces around a separator that occurs once. *)
Lemma second_piece (h : ascii) (t a b : string) :
  char_in h t = false ->
  str_contains (String h t) a = false ->
  str_contains (String h t) b = false ->
  str_split (String h t) (a ++ String h t ++ b) = Ok [a; b].
Proof.
  intros Hh Ha Hb. unfold str_split. cbn [String.eqb].
  by rewrite (split_go_marker h t a b Hh Ha), (split_go_absent _ _ Hb).
Qed.

(** X2. The remote transport reads back what it builds: for a parser built
    from a URL and a version whose base path does not contain "/schema",
    the path computed for a relative path [pkg/name] (free of "/schema",
    with no "/" in [name]) is split by [get_information] into [pkg] and
    [name]. *)
Theorem remote_round_trip (u v pkg name : string) (w : World) :
  str_contains "/schema" (u ++ "V" ++ str_replace "." "_" v) = false ->
  str_contains "/schema" (pkg ++ "/" ++ name) = false ->
  str_contains "/" name = false ->
  exists remote path,
    SwaggerURLParser.__init__ u (Some v) w = (Ok remote, w) /\
    path_for_swagger_model remote (JStr (pkg ++ "/" ++ name)) = Ok path /\
    path = SwaggerURLParser.base_path remote ++ "/schema" ++ pkg ++ "/" ++ name /\
    information_pair remote path = Ok (pkg, name).
Proof.
  intros Hbase Hrel Hname. eexists _, _.
  split; [reflexivity|]. split; [reflexivity|]. split; [reflexivity|].
  unfold information_pair. cbn [get_information SwaggerURLParser_parser].
  unfold SwaggerURLParser.get_information. cbn [SwaggerURLParser.base_path].
  change SCHEMA_FILEPATH with (String "/" "schema").
  rewrite (second_piece "/" "schema" _ _ eq_refl Hbase Hrel). cbn [rbind index1].
  unfold str_rsplit1. cbn [String.eqb Ascii.eqb Bool.eqb].
  by rewrite (rcut_last_slash _ _ Hname).
Qed.

Lemma remote_round_trip_witness :
  exists remote path,
    SwaggerURLParser.__init__ "http://h/" (Some "3.0") SampleRemote.lost_world
    = (Ok remote, SampleRemote.lost_world) /\
    path_for_swagger_model remote (JStr ("/v1" ++ "/" ++ "foo")) = Ok path /\
    path = SwaggerURLParser.base_path remote ++ "/schema" ++ "/v1" ++ "/" ++ "foo" /\
    information_pair remote path = Ok ("/v1", "foo").
Proof.
  apply (remote_round_trip "http://h/" "3.0" "/v1" "foo" SampleRemote.lost_world);
    reflexivity.
Defined.

(** X1. The local transport reads back what it builds, up to the extension:
    for a parser with a non-empty root path, the path computed for a
    relative path [pkg/name] is the root path, the relative path and the
    extension, and [get_information] splits it into [pkg] and [name]
    followed by the extension -- provided the root path does not occur in
    what follows it and neither [name] nor the extension has a "/".  The
    extension is not taken off the resource name; the constructor sets it
    to the empty text. *)
Theorem local_round_trip_extension (fmt : Formatter) (self : SwaggerFileParser.t)
    (pkg name : string) :
  let root := SwaggerFileParser.path self in
  let ext := SwaggerFileParser.extension self in
  root <> "" ->
  str_contains root (pkg ++ "/" ++ name ++ ext) = false ->
  str_contains "/" (name ++ ext) = false ->
  exists path,
    SwaggerFileParser.path_for_swagger_model self (JStr (pkg ++ "/" ++ name)) = Ok path /\
    path = root ++ pkg ++ "/" ++ name ++ ext /\
    information_pair self path = Ok (pkg, name ++ ext).
Proof.
  intros root ext Hroot Habsent Hname. eexists. split; [reflexivity|].
  cbn [format_s]. fold root. fold ext. rewrite !append_assoc.
  change (String "/" (name ++ ext)) with ("/" ++ name ++ ext).
  split; [reflexivity|].
  unfold information_pair. cbn [get_information SwaggerFileParser_parser].
  unfold SwaggerFileParser.get_information, str_split. fold root.
  rewrite (proj2 (String.eqb_neq _ _) Hroot).
  rewrite split_go_leading by exact Hroot.
  rewrite (split_go_absent _ _ Habsent). cbn [rbind index1].
  unfold str_rsplit1. cbn [String.eqb Ascii.eqb Bool.eqb].
  by rewrite (rcut_last_slash _ _ Hname).
Qed.

Lemma local_round_trip_extension_witness :
  exists path,
    SwaggerFileParser.path_for_swagger_model (fmt := Sample.formatter)
      (SwaggerFileParser.mk "/x" None ".json" "/x/api-docs.json")
      (JStr ("/v1" ++ "/" ++ "foo")) = Ok path /\
    path = "/x" ++ "/v1" ++ "/" ++ "foo" ++ ".json" /\
    information_pair (transport := @SwaggerFileParser_parser Sample.formatter)
      (SwaggerFileParser.mk "/x" None ".json" "/x/api-docs.json") path
    = Ok ("/v1", "foo" ++ ".json").
Proof.
  apply (local_round_trip_extension Sample.formatter
           (SwaggerFileParser.mk "/x" None ".json" "/x/api-docs.json") "/v1" "foo");
    [discriminate | reflexivity | reflexivity].
Defined.

Lemma str_split_absent (sep s : string) :
  sep <> "" -> str_contains sep s = false -> str_split sep s = Ok [s].
Proof.
  intros Hsep Hs. unfold str_split. rewrite (proj2 (String.eqb_neq _ _) Hsep).
  by rewrite (split_go_absent _ _ Hs).
Qed.

(** X3. A path that does not contain the marker of its transport names no
    resource: the task raises IndexError before anything is fetched -- the
    marker being "/schema" for the remote transport and the root path for
    the local one.  A local transport whose root path is the empty text
    cannot read any path back: splitting on an empty separator is a
    ValueError. *)
Theorem unmarked_path_rejected (path : string) (results : ResourceMap) (w : World) :
  (forall remote : SwaggerURLParser.t,
     str_contains "/schema" path = false ->
     _grab_resource remote path results w = (Raise IndexError, w)) /\
  (forall (fmt : Formatter) (local : SwaggerFileParser.t),
     SwaggerFileParser.path local <> "" ->
     str_contains (SwaggerFileParser.path local) path = false ->
     _grab_resource local path results w = (Raise IndexError, w)) /\
  (forall (fmt : Formatter) (local : SwaggerFileParser.t),
     SwaggerFileParser.path local = "" ->
     _grab_resource local path results w = (Raise ValueError, w)).
Proof.
  split; [|split].
  - intros remote Hp. rewrite grab_resource_run. unfold information_pair.
    cbn [get_information SwaggerURLParser_parser].
    unfold SwaggerURLParser.get_information.
    by rewrite (str_split_absent SCHEMA_FILEPATH path) by done.
  - intros fmt local Hroot Hp. rewrite grab_resource_run. unfold information_pair.
    cbn [get_information SwaggerFileParser_parser].
    unfold SwaggerFileParser.get_information.
    by rewrite (str_split_absent _ path Hroot Hp).
  - intros fmt local Hroot. rewrite grab_resource_run. unfold information_pair.
    cbn [get_information SwaggerFileParser_parser].
    unfold SwaggerFileParser.get_information, str_split. by rewrite Hroot.
Qed.

Lemma unmarked_path_rejected_witness :
  _grab_resource SampleRemote.remote_parser "http://h/V3_0/v1/foo" ∅
    SampleRemote.flaky_world
  = (Raise IndexError, SampleRemote.flaky_world) /\
  _grab_resource (transport := @SwaggerFileParser_parser Sample.formatter)
    Sample.local_parser "/y/v1/foo" ∅ Sample.world
  = (Raise IndexError, Sample.world) /\
  _grab_resource (transport := @SwaggerFileParser_parser Sample.formatter)
    (SwaggerFileParser.__init__ "" None) "/v1/foo" ∅ Sample.world
  = (Raise ValueError, Sample.world).
Proof.
  split; [|split].
  - apply (proj1 (unmarked_path_rejected "http://h/V3_0/v1/foo" ∅
                    SampleRemote.flaky_world)); reflexivity.
  - apply (proj1 (proj2 (unmarked_path_rejected "/y/v1/foo" ∅ Sample.world)));
      [discriminate | reflexivity].
  - apply (proj2 (proj2 (unmarked_path_rejected "/v1/foo" ∅ Sample.world)));
      reflexivity.
Defined.

(** X4. Two kinds of entry path that the local transport computes a path
    for and cannot read back: an entry with no "/" in it (and clear of the
    root path), and an entry that begins with the root path itself.  In both
    cases [get_information] yields a single piece, the unpacking into
    (package, resource_name) raises ValueError, and nothing is fetched. *)
Theorem unreadable_local_entries (fmt : Formatter) (root : string)
    (v : option string) (results : ResourceMap) (w : World) :
  root <> "" ->
  (forall name,
     str_contains root name = false ->
     str_contains "/" name = false ->
     SwaggerFileParser.path_for_swagger_model (SwaggerFileParser.__init__ root v) (JStr name)
     = Ok (root ++ name) /\
     _grab_resource (SwaggerFileParser.__init__ root v) (root ++ name) results w
     = (Raise ValueError, w)) /\
  (forall rest,
     SwaggerFileParser.path_for_swagger_model (SwaggerFileParser.__init__ root v) (JStr (root ++ rest))
     = Ok (root ++ root ++ rest) /\
     _grab_resource (SwaggerFileParser.__init__ root v) (root ++ root ++ rest) results w
     = (Raise ValueError, w)).
Proof.
  intros Hroot. split.
  - intros name Hname Hslash. split.
    { unfold SwaggerFileParser.path_for_swagger_model.
      cbn [SwaggerFileParser.__init__ SwaggerFileParser.path
           SwaggerFileParser.extension format_s].
      by rewrite ?append_assoc, append_empty_r. }
    rewrite grab_resource_run. unfold information_pair.
    cbn [get_information SwaggerFileParser_parser].
    unfold SwaggerFileParser.get_information, str_split.
    cbn [SwaggerFileParser.__init__ SwaggerFileParser.path].
    rewrite (proj2 (String.eqb_neq _ _) Hroot).
    rewrite split_go_leading by exact Hroot.
    rewrite (split_go_absent _ _ Hname). cbn [rbind index1].
    unfold str_rsplit1. cbn [String.eqb Ascii.eqb Bool.eqb].
    by rewrite (rcut_absent _ _ Hslash).
  - intros rest. split.
    { unfold SwaggerFileParser.path_for_swagger_model.
      cbn [SwaggerFileParser.__init__ SwaggerFileParser.path
           SwaggerFileParser.extension format_s].
      by rewrite ?append_assoc, append_empty_r. }
    rewrite grab_resource_run. unfold information_pair.
    cbn [get_information SwaggerFileParser_parser].
    unfold SwaggerFileParser.get_information, str_split.
    cbn [SwaggerFileParser.__init__ SwaggerFileParser.path].
    rewrite (proj2 (String.eqb_neq _ _) Hroot).
    rewrite !split_go_leading by exact Hroot. reflexivity.
Qed.

Lemma unreadable_local_entries_witness :
  (forall name,
     str_contains "/x" name = false ->
     str_contains "/" name = false ->
     SwaggerFileParser.path_for_swagger_model (fmt := Sample.formatter)
       (SwaggerFileParser.__init__ "/x" None) (JStr name) = Ok ("/x" ++ name) /\
     _grab_resource (transport := @SwaggerFileParser_parser Sample.formatter)
       (SwaggerFileParser.__init__ "/x" None) ("/x" ++ name) ∅ Sample.world
     = (Raise ValueError, Sample.world)) /\
  (forall rest,
     SwaggerFileParser.path_for_swagger_model (fmt := Sample.formatter)
       (SwaggerFileParser.__init__ "/x" None) (JStr ("/x" ++ rest))
     = Ok ("/x" ++ "/x" ++ rest) /\
     _grab_resource (transport := @SwaggerFileParser_parser Sample.formatter)
       (SwaggerFileParser.__init__ "/x" None) ("/x" ++ "/x" ++ rest) ∅ Sample.world
     = (Raise ValueError, Sample.world)).
Proof.
  apply (unreadable_local_entries Sample.formatter "/x" None ∅ Sample.world).
  discriminate.
Defined.

(** ** What the task writes and what it leaves alone *)

Lemma derived_model_named (d dmod dmeta : list (string * json)) (name package : string)
    (l : list json) (k : string) :
  dict_get "models" d = Some (JDict dmod) ->
  k <> "Metadata" ->
  model_named (derived d dmod dmeta name package l) k = model_named (JDict d) k.
Proof.
  intros Hm Hk. unfold derived, model_named. cbn.
  rewrite !dict_get_set_ne by done. rewrite dict_get_set_eq, Hm. cbn.
  by rewrite dict_get_set_ne by done.
Qed.

Lemma derived_model_field (d dmod dmeta : list (string * json)) (name package : string)
    (l : list json) (f : string) :
  dict_get "models" d = Some (JDict dmod) ->
  dict_get "Metadata" dmod = Some (JDict dmeta) ->
  f <> "id" ->
  model_field (derived d dmod dmeta name package l) f = model_field (JDict d) f.
Proof.
  intros Hm Hd Hf. unfold derived, model_field. cbn.
  rewrite !dict_get_set_ne by done. rewrite dict_get_set_eq, Hm. cbn.
  rewrite dict_get_set_eq, Hd. cbn. by rewrite dict_get_set_ne by done.
Qed.

Section Writes.
Context {P : Type} {transport : AbstractSwaggerParser P}.

(** X5. The task on a resource named "Metadata" writes the three names of
    the split and no other: the keys of the map afterwards are its keys
    before together with "Metadata", "GlobalMetadata" and
    "AggregateMetadata", and every other name holds what it held. *)
Theorem metadata_writes_three_keys (self : P) (path package : string)
    (results : ResourceMap) (w w1 : World) (infos : json) :
  information_pair self path = Ok (package, "Metadata") ->
  get_swagger_model self path "Metadata" w = (Ok infos, w1) ->
  split_ready infos = true ->
  exists results' : ResourceMap,
    _grab_resource self path results w = (Ok results', w1) /\
    dom results' = dom results ∪ {["Metadata"; "GlobalMetadata"; "AggregateMetadata"]} /\
    forall name,
      name <> "Metadata" -> name <> "GlobalMetadata" -> name <> "AggregateMetadata" ->
      results' !! name = results !! name.
Proof.
  intros Hinfo Hfetch Hready.
  destruct (grab_metadata_run self path package results w w1 infos
              Hinfo Hfetch Hready)
    as (d & dmod & dmeta & entries & -> & Hm & Hd & He & Hrun).
  eexists. split; [exact Hrun|]. split.
  - rewrite !dom_insert_L. apply set_eq. intros k.
    rewrite !elem_of_union, !elem_of_singleton. tauto.
  - intros name H1 H2 H3. by rewrite !lookup_insert_ne.
Qed.

(** X6. Each of the three documents of the split is the fetched document
    with three things rewritten: the top-level [apis] and [package], and the
    [id] of [models.Metadata].  Every other top-level key, every other
    model, and every other field of the Metadata model is as in the
    original. *)
Theorem split_keeps_the_rest (self : P) (path package : string)
    (results : ResourceMap) (w w1 : World) (infos : json) :
  information_pair self path = Ok (package, "Metadata") ->
  get_swagger_model self path "Metadata" w = (Ok infos, w1) ->
  split_ready infos = true ->
  exists results' : ResourceMap,
    _grab_resource self path results w = (Ok results', w1) /\
    forall name doc,
      name = "Metadata" \/ name = "GlobalMetadata" \/ name = "AggregateMetadata" ->
      results' !! name = Some doc ->
      (forall k, k <> "apis" -> k <> "models" -> k <> "package" ->
         getitem doc k = getitem infos k) /\
      (forall k, k <> "Metadata" -> model_named doc k = model_named infos k) /\
      (forall f, f <> "id" -> model_field doc f = model_field infos f).
Proof.
  intros Hinfo Hfetch Hready.
  destruct (grab_metadata_run self path package results w w1 infos
              Hinfo Hfetch Hready)
    as (d & dmod & dmeta & entries & -> & Hm & Hd & He & Hrun).
  eexists. split; [exact Hrun|].
  assert (forall name l,
    (forall k, k <> "apis" -> k <> "models" -> k <> "package" ->
       getitem (derived d dmod dmeta name package l) k = getitem (JDict d) k) /\
    (forall k, k <> "Metadata" ->
       model_named (derived d dmod dmeta name package l) k = model_named (JDict d) k) /\
    (forall f, f <> "id" ->
       model_field (derived d dmod dmeta name package l) f = model_field (JDict d) f))
    as Hkept.
  { intros name l. split; [|split].
    - intros k. apply derived_other.
    - intros k. by apply derived_model_named.
    - intros f. by apply derived_model_field. }
  intros name doc [->|[->| ->]] Hdoc.
  - rewrite lookup_insert_ne in Hdoc by done.
    rewrite lookup_insert_ne in Hdoc by done.
    rewrite lookup_insert_eq in Hdoc. injection Hdoc as <-. apply Hkept.
  - rewrite lookup_insert_ne in Hdoc by done.
    rewrite lookup_insert_eq in Hdoc. injection Hdoc as <-. apply Hkept.
  - rewrite lookup_insert_eq in Hdoc. injection Hdoc as <-. apply Hkept.
Qed.

(** X7. A fetched document that is not a JSON object makes the task raise
    TypeError, whatever the name of the resource: the first thing either
    branch does to the document is an item assignment.  Nothing is written. *)
Theorem non_object_document_rejected (self : P) (path package resource_name : string)
    (results : ResourceMap) (w w1 : World) (infos : json) :
  information_pair self path = Ok (package, resource_name) ->
  get_swagger_model self path resource_name w = (Ok infos, w1) ->
  (forall d, infos <> JDict d) ->
  _grab_resource self path results w = (Raise TypeError, w1).
Proof.
  intros Hinfo Hfetch Hnot. rewrite grab_resource_run, Hinfo, Hfetch.
  destruct (String.eqb resource_name "Metadata").
  - unfold split_metadata. rewrite deepcopy_id.
    destruct infos; try done. by destruct (Hnot d).
  - destruct infos; try done. by destruct (Hnot d).
Qed.
End Writes.

Lemma metadata_writes_three_keys_witness :
  exists results' : ResourceMap,
    _grab_resource (transport := @SwaggerFileParser_parser Sample.formatter)
      Sample.local_parser "/x/v1/Metadata" ∅ Sample.world
    = (Ok results',
       snd (SwaggerFileParser.get_swagger_model Sample.local_parser
              "/x/v1/Metadata" "Metadata" Sample.world)) /\
    dom results'
    = dom (∅ : ResourceMap) ∪ {["Metadata"; "GlobalMetadata"; "AggregateMetadata"]} /\
    forall name,
      name <> "Metadata" -> name <> "GlobalMetadata" -> name <> "AggregateMetadata" ->
      results' !! name = (∅ : ResourceMap) !! name.
Proof.
  apply (metadata_writes_three_keys
           (transport := @SwaggerFileParser_parser Sample.formatter)
           Sample.local_parser "/x/v1/Metadata" "/v1" ∅ Sample.world _
           Sample.metadata_doc); reflexivity.
Defined.

Lemma split_keeps_the_rest_witness :
  exists results' : ResourceMap,
    _grab_resource (transport := @SwaggerFileParser_parser Sample.formatter)
      Sample.local_parser "/x/v1/Metadata" ∅ Sample.world
    = (Ok results',
       snd (SwaggerFileParser.get_swagger_model Sample.local_parser
              "/x/v1/Metadata" "Metadata" Sample.world)) /\
    forall name doc,
      name = "Metadata" \/ name = "GlobalMetadata" \/ name = "AggregateMetadata" ->
      results' !! name = Some doc ->
      (forall k, k <> "apis" -> k <> "models" -> k <> "package" ->
         getitem doc k = getitem Sample.metadata_doc k) /\
      (forall k, k <> "Metadata" ->
         model_named doc k = model_named Sample.metadata_doc k) /\
      (forall f, f <> "id" -> model_field doc f = model_field Sample.metadata_doc f).
Proof.
  apply (split_keeps_the_rest
           (transport := @SwaggerFileParser_parser Sample.formatter)
           Sample.local_parser "/x/v1/Metadata" "/v1" ∅ Sample.world _
           Sample.metadata_doc); reflexivity.
Defined.

Lemma non_object_document_rejected_witness :
  _grab_resource (transport := @SwaggerFileParser_parser Sample.formatter)
    Sample.local_parser "/x/v1/Metadata" ∅ SampleMore.odd_world
  = (Raise TypeError,
     snd (SwaggerFileParser.get_swagger_model Sample.local_parser
            "/x/v1/Metadata" "Metadata" SampleMore.odd_world)).
Proof.
  apply (non_object_document_rejected
           (transport := @SwaggerFileParser_parser Sample.formatter)
           Sample.local_parser "/x/v1/Metadata" "/v1" "Metadata" ∅
           SampleMore.odd_world _ (JList []));
    [reflexivity | reflexivity | discriminate].
Defined.

(** ** Reading a file *)


(** X8. The three outcomes of reading a file of the local transport.  A
    path that is not a file fails with "[File Path] Could not access" and
    the path, without any attempt to open it; a file that cannot be opened
    or parsed fails with a message that names the path and carries the
    parser's own message; a file that parses is returned as it is.  The
    root document is read in the same way, from the root path followed by
    "/api-docs" and the extension. *)
Theorem local_read_outcomes (self : SwaggerFileParser.t) (path resource_name : string)
    (w : World) :
  let root := SwaggerFileParser.path self ++ "/api-docs"
              ++ SwaggerFileParser.extension self in
  (files w path = NoFile ->
   SwaggerFileParser.get_swagger_model self path resource_name w
   = (Raise (PrinterError ("[File Path] Could not access " ++ path)),
      log (IsFile path) w)) /\
  (forall message,
     files w path = Unreadable message ->
     SwaggerFileParser.get_swagger_model self path resource_name w
     = (Raise (PrinterError ("[File Path] Could load json file " ++ path
                             ++ " due to following error:" ++ String "010" message)),
        log (LoadFile path) (log (IsFile path) w))) /\
  (forall content,
     files w path = JsonFile content ->
     SwaggerFileParser.get_swagger_model self path resource_name w
     = (Ok content, log (LoadFile path) (log (IsFile path) w))) /\
  SwaggerFileParser.get_api_docs self w
  = SwaggerFileParser.get_swagger_model self root "api-docs" w.
Proof.
  intros root.
  unfold SwaggerFileParser.get_swagger_model, SwaggerFileParser.get_api_docs,
    SwaggerFileParser.load, bind, try_except, os_path_isfile, json_load_open,
    raiseError, raise.
  repeat split.
  - by intros ->.
  - intros message Hf. rewrite Hf. cbn [negb log files]. by rewrite Hf.
  - intros content Hf. rewrite Hf. cbn [negb log files]. by rewrite Hf.
Qed.

Lemma local_read_outcomes_witness :
  SwaggerFileParser.get_swagger_model Sample.local_parser "/x/v1/bar" "bar"
    SampleMore.odd_world
  = (Raise (PrinterError ("[File Path] Could not access " ++ "/x/v1/bar")),
     log (IsFile "/x/v1/bar") SampleMore.odd_world) /\
  SwaggerFileParser.get_swagger_model Sample.local_parser "/x/v1/foo" "foo"
    SampleMore.odd_world
  = (Raise (PrinterError ("[File Path] Could load json file " ++ "/x/v1/foo"
                          ++ " due to following error:"
                          ++ String "010" "Expecting value")),
     log (LoadFile "/x/v1/foo") (log (IsFile "/x/v1/foo") SampleMore.odd_world)) /\
  SwaggerFileParser.get_swagger_model Sample.local_parser "/x/v1/Metadata" "Metadata"
    SampleMore.odd_world
  = (Ok (JList []),
     log (LoadFile "/x/v1/Metadata")
       (log (IsFile "/x/v1/Metadata") SampleMore.odd_world)).
Proof.
  split; [|split].
  - apply (proj1 (local_read_outcomes Sample.local_parser "/x/v1/bar" "bar"
                    SampleMore.odd_world)); reflexivity.
  - apply (proj1 (proj2 (local_read_outcomes Sample.local_parser "/x/v1/foo" "foo"
                           SampleMore.odd_world))); reflexivity.
  - apply (proj1 (proj2 (proj2 (local_read_outcomes Sample.local_parser
                                  "/x/v1/Metadata" "Metadata" SampleMore.odd_world))));
      reflexivity.
Defined.

(** ** Answers of the server *)

(** X9. The root fetch of the remote transport is a single request that is
    never repeated: a 200 answer with a JSON body is returned; a 200 answer
    whose body is not JSON fails with "Could not load properly json from"
    and the URL; a failed handshake, like any other failure of the
    transport, is surfaced as it is -- the retry of the per-resource fetch
    does not exist here. *)
Theorem remote_root_outcomes (self : SwaggerURLParser.t) (w : World) :
  let url := SwaggerURLParser.schema_url self in
  let once := log (HttpGet url) w in
  (forall data,
     server w url (gets_of url w) = Response 200 (Some data) ->
     SwaggerURLParser.get_api_docs self w = (Ok data, once)) /\
  (server w url (gets_of url w) = Response 200 None ->
   SwaggerURLParser.get_api_docs self w
   = (Raise (PrinterError ("Could not load properly json from " ++ url)), once)) /\
  (server w url (gets_of url w) = HandshakeFailure ->
   SwaggerURLParser.get_api_docs self w = (Raise SSLError, once)) /\
  (forall cause,
     server w url (gets_of url w) = TransportFailure cause ->
     SwaggerURLParser.get_api_docs self w = (Raise (RequestException cause), once)).
Proof.
  intros url once.
  unfold SwaggerURLParser.get_api_docs, bind, requests_get. fold url. fold once.
  repeat split.
  - by intros data ->.
  - by intros ->.
  - by intros ->.
  - by intros cause ->.
Qed.

Lemma remote_root_outcomes_witness :
  SwaggerURLParser.get_api_docs SampleRemote.remote_parser SampleMore.serving_world
  = (Ok Sample.root_doc,
     log (HttpGet "http://h/V3_0/schema/api-docs") SampleMore.serving_world) /\
  SwaggerURLParser.get_api_docs SampleRemote.remote_parser SampleMore.garbled_world
  = (Raise (PrinterError ("Could not load properly json from "
                          ++ "http://h/V3_0/schema/api-docs")),
     log (HttpGet "http://h/V3_0/schema/api-docs") SampleMore.garbled_world) /\
  SwaggerURLParser.get_api_docs SampleRemote.remote_parser SampleMore.refusing_world
  = (Raise SSLError,
     log (HttpGet "http://h/V3_0/schema/api-docs") SampleMore.refusing_world).
Proof.
  split; [|split].
  - apply (proj1 (remote_root_outcomes SampleRemote.remote_parser
                    SampleMore.serving_world)); reflexivity.
  - apply (proj1 (proj2 (remote_root_outcomes SampleRemote.remote_parser
                           SampleMore.garbled_world))); reflexivity.
  - apply (proj1 (proj2 (proj2 (remote_root_outcomes SampleRemote.remote_parser
                                  SampleMore.refusing_world)))); reflexivity.
Defined.

(** X10. The errors of the per-resource fetch of the remote transport once
    the server has answered, at the first attempt or at the second after a
    failed handshake.  An answer whose status is not 200 fails with a
    message that carries the status, the name of the resource and the
    path, whatever its body: the status is looked at first.  A 200 answer
    whose body is not JSON fails with "Could not load properly json from"
    and the path. *)
Theorem remote_resource_errors (self : SwaggerURLParser.t)
    (path resource_name : string) (w : World) :
  let n := gets_of path w in
  let once := log (HttpGet path) w in
  let twice := log (HttpGet path) once in
  let refused status :=
    PrinterError ("[HTTP " ++ pretty status ++ "] An error occured while retrieving "
                  ++ resource_name ++ " at " ++ path) in
  let garbled := PrinterError ("Could not load properly json from " ++ path) in
  (forall status body,
     server w path n = Response status body -> status <> 200 ->
     SwaggerURLParser.get_swagger_model self path resource_name w
     = (Raise (refused status), once)) /\
  (server w path n = Response 200 None ->
   SwaggerURLParser.get_swagger_model self path resource_name w
   = (Raise garbled, once)) /\
  (forall status body,
     server w path n = HandshakeFailure ->
     server w path (S n) = Response status body -> status <> 200 ->
     SwaggerURLParser.get_swagger_model self path resource_name w
     = (Raise (refused status), twice)) /\
  (server w path n = HandshakeFailure ->
   server w path (S n) = Response 200 None ->
   SwaggerURLParser.get_swagger_model self path resource_name w
   = (Raise garbled, twice)).
Proof.
  intros n once twice refused garbled.
  unfold SwaggerURLParser.get_swagger_model, bind.
  rewrite retry_run. fold n. fold once. fold twice.
  repeat split.
  - intros status body -> Hs. cbn [outcome_result].
    by apply Z.eqb_neq in Hs as ->.
  - by intros ->.
  - intros status body -> -> Hs. cbn [outcome_result].
    by apply Z.eqb_neq in Hs as ->.
  - by intros -> ->.
Qed.

Lemma remote_resource_errors_witness :
  SwaggerURLParser.get_swagger_model SampleRemote.remote_parser
    "http://h/V3_0/schema/v1/foo" "foo" SampleRemote.lost_world
  = (Raise (PrinterError ("[HTTP " ++ pretty 404
                          ++ "] An error occured while retrieving "
                          ++ "foo" ++ " at " ++ "http://h/V3_0/schema/v1/foo")),
     log (HttpGet "http://h/V3_0/schema/v1/foo") SampleRemote.lost_world) /\
  SwaggerURLParser.get_swagger_model SampleRemote.remote_parser
    "http://h/V3_0/schema/v1/foo" "foo" SampleMore.garbled_world
  = (Raise (PrinterError ("Could not load properly json from "
                          ++ "http://h/V3_0/schema/v1/foo")),
     log (HttpGet "http://h/V3_0/schema/v1/foo") SampleMore.garbled_world).
Proof.
  split.
  - apply (proj1 (remote_resource_errors SampleRemote.remote_parser
                    "http://h/V3_0/schema/v1/foo" "foo" SampleRemote.lost_world)
             404 None); [reflexivity | discriminate].
  - apply (proj1 (proj2 (remote_resource_errors SampleRemote.remote_parser
                           "http://h/V3_0/schema/v1/foo" "foo"
                           SampleMore.garbled_world))); reflexivity.
Defined.

(** ** The loop of the driver *)

Section Loop.
Context {P : Type} {transport : AbstractSwaggerParser P}.




(** X14. A root document that lists no resource gives the empty map, and
    nothing is touched after the root fetch.  The version is resolved all
    the same when none was supplied. *)
Theorem no_resource_no_fetch {resolver : Utils} (self : P)
    (d : list (string * json)) (version : json) (w w1 : World) :
  get_api_docs self w = (Ok (JDict d), w1) ->
  dict_get "apiVersion" d = Some version ->
  dict_get "apis" d = Some (JList []) ->
  (forall v, apiversion self = Some v -> grab_all self w = (Ok (self, ∅), w1)) /\
  (forall v, apiversion self = None -> get_version version = Ok v ->
     grab_all self w = (Ok (set_apiversion v self, ∅), w1)) /\
  (forall e, apiversion self = None -> get_version version = Raise e ->
     grab_all self w = (Raise e, w1)).
Proof.
  intros Hroot Hversion Hapis.
  assert (forall self' : P, grab_resources self' (JDict d) w1 = (Ok (self', ∅), w1))
    as Hrest.
  { intros self'. unfold grab_resources, bind, lift, SWAGGER_APIS.
    cbn [getitem]. by rewrite Hapis. }
  split; [|split].
  - intros v Hv. rewrite (grab_all_pinned self v w Hv), Hroot.
    unfold SWAGGER_APIS, SWAGGER_APIVERSION. cbn [contains_op].
    by rewrite Hapis, Hversion.
  - intros v Hnone Hv. unfold grab_all, bind, lift, ret. rewrite Hroot.
    unfold SWAGGER_APIS, SWAGGER_APIVERSION. cbn [contains_op getitem].
    rewrite Hapis, Hversion, Hnone. cbn [negb rbind]. rewrite Hv.
    apply Hrest.
  - intros e Hnone He. unfold grab_all, bind, lift, ret. rewrite Hroot.
    unfold SWAGGER_APIS, SWAGGER_APIVERSION. cbn [contains_op getitem].
    rewrite Hapis, Hversion, Hnone. cbn [negb rbind]. by rewrite He.
Qed.
End Loop.


Lemma no_resource_no_fetch_witness :
  (forall v,
     apiversion (AbstractSwaggerParser := @SwaggerFileParser_parser Sample.formatter)
       Sample.local_parser = Some v ->
     grab_all (transport := @SwaggerFileParser_parser Sample.formatter)
       (resolver := Sample.utils) Sample.local_parser SampleMore.empty_world
     = (Ok (Sample.local_parser, ∅),
        snd (SwaggerFileParser.get_api_docs Sample.local_parser
               SampleMore.empty_world))) /\
  (forall v,
     apiversion (AbstractSwaggerParser := @SwaggerFileParser_parser Sample.formatter)
       Sample.local_parser = None ->
     get_version (Utils := Sample.utils) (JStr "3.0") = Ok v ->
     grab_all (transport := @SwaggerFileParser_parser Sample.formatter)
       (resolver := Sample.utils) Sample.local_parser SampleMore.empty_world
     = (Ok (set_apiversion
              (AbstractSwaggerParser := @SwaggerFileParser_parser Sample.formatter)
              v Sample.local_parser, ∅),
        snd (SwaggerFileParser.get_api_docs Sample.local_parser
               SampleMore.empty_world))) /\
  (forall e,
     apiversion (AbstractSwaggerParser := @SwaggerFileParser_parser Sample.formatter)
       Sample.local_parser = None ->
     get_version (Utils := Sample.utils) (JStr "3.0") = Raise e ->
     grab_all (transport := @SwaggerFileParser_parser Sample.formatter)
       (resolver := Sample.utils) Sample.local_parser SampleMore.empty_world
     = (Raise e,
        snd (SwaggerFileParser.get_api_docs Sample.local_parser
               SampleMore.empty_world))).
Proof.
  apply (no_resource_no_fetch
           (transport := @SwaggerFileParser_parser Sample.formatter)
           (resolver := Sample.utils) Sample.local_parser
           [("apiVersion", JStr "3.0"); ("apis", JList [])] (JStr "3.0")
           SampleMore.empty_world _); reflexivity.
Defined.

(** ** The version in the root URL *)

Lemma str_map_length (f : ascii -> ascii) (s : string) :
  String.length (str_map f s) = String.length s.
Proof. induction s as [|c s IH]; cbn; congruence. Qed.

Lemma dots_removed (s : string) : char_in "." (str_map dot_to_underscore s) = false.
Proof.
  induction s as [|c s IH]; [done|]. cbn [str_map char_in]. rewrite IH.
  unfold dot_to_underscore. by destruct (Ascii.eqb c ".") eqn:E; [|rewrite E].
Qed.

Lemma dotless_unchanged (s : string) :
  char_in "." s = false -> str_map dot_to_underscore s = s.
Proof.
  induction s as [|c s IH]; [done|]. cbn [str_map char_in].
  intros H. apply orb_false_iff in H as [Hc Hs]. rewrite (IH Hs).
  unfold dot_to_underscore. by rewrite Hc.
Qed.

(** X13. The version segment of the URLs of the remote transport: the base
    path is the URL, "V" and a segment as long as the version, without any
    dot, equal to the version when the version has no dot; the root URL is
    the base path followed by "/schema/api-docs", and every per-resource
    path is the base path followed by "/schema" and the entry path. *)
Theorem remote_urls (u v : string) (w : World) :
  exists remote segment,
    SwaggerURLParser.__init__ u (Some v) w = (Ok remote, w) /\
    SwaggerURLParser.base_path remote = u ++ "V" ++ segment /\
    String.length segment = String.length v /\
    char_in "." segment = false /\
    (char_in "." v = false -> segment = v) /\
    SwaggerURLParser.schema_url remote
    = SwaggerURLParser.base_path remote ++ "/schema/api-docs" /\
    (forall p, SwaggerURLParser.path_for_swagger_model remote (JStr p)
               = Ok (SwaggerURLParser.base_path remote ++ "/schema" ++ p)) /\
    (forall p, (forall s, p <> JStr s) ->
               SwaggerURLParser.path_for_swagger_model remote p = Raise TypeError).
Proof.
  eexists _, (str_map dot_to_underscore v).
  split; [reflexivity|]. cbn [SwaggerURLParser.base_path SwaggerURLParser.schema_url].
  split; [by rewrite str_replace_dots|].
  split; [apply str_map_length|].
  split; [apply dots_removed|].
  split; [apply dotless_unchanged|].
  split; [reflexivity|].
  split; [reflexivity|].
  intros p Hp. destruct p; try done. by destruct (Hp s).
Qed.

Lemma remote_urls_witness :
  exists remote segment,
    SwaggerURLParser.__init__ "http://h/" (Some "3.0") SampleRemote.lost_world
    = (Ok remote, SampleRemote.lost_world) /\
    SwaggerURLParser.base_path remote = "http://h/" ++ "V" ++ segment /\
    String.length segment = String.length "3.0" /\
    char_in "." segment = false /\
    (char_in "." "3.0" = false -> segment = "3.0") /\
    SwaggerURLParser.schema_url remote
    = SwaggerURLParser.base_path remote ++ "/schema/api-docs" /\
    (forall p, SwaggerURLParser.path_for_swagger_model remote (JStr p)
               = Ok (SwaggerURLParser.base_path remote ++ "/schema" ++ p)) /\
    (forall p, (forall s, p <> JStr s) ->
               SwaggerURLParser.path_for_swagger_model remote p = Raise TypeError).
Proof. apply (remote_urls "http://h/" "3.0" SampleRemote.lost_world). Defined.

(** ** From the root document to the map *)



Section Root.
Context {P : Type} {transport : AbstractSwaggerParser P}.

(** X16. A root document that is not a JSON object never gives a map and
    never leads to a fetch.  The two checks of [grab_all] are [in] tests,
    which an array or a text can pass; what follows subscripts the document
    by a key and raises TypeError.  So the run ends in TypeError or in one
    of the two structural errors, in the world the root fetch left. *)
Theorem non_object_root_rejected {resolver : Utils} (self : P) (data : json)
    (w w1 : World) :
  get_api_docs self w = (Ok data, w1) ->
  (forall d, data <> JDict d) ->
  exists e,
    grab_all self w = (Raise e, w1) /\
    (e = TypeError \/
     e = PrinterError "No apis information found in api-docs" \/
     e = PrinterError "No api version found in api-docs").
Proof.
  intros Hroot Hnot.
  assert (forall k, getitem data k = Raise TypeError) as Hget.
  { intros k. destruct data; try done. by destruct (Hnot d). }
  unfold grab_all, bind, lift, raiseError, raise. rewrite Hroot.
  destruct (contains_op SWAGGER_APIS data) as [[|]|e] eqn:Hapis; cbn [negb].
  - destruct (contains_op SWAGGER_APIVERSION data) as [[|]|e] eqn:Hversion; cbn [negb].
    + destruct (apiversion self) as [v|].
      * unfold ret, grab_resources, bind, lift. rewrite Hget. eauto.
      * rewrite Hget. eauto.
    + eauto.
    + exists e. split; [done|]. left. destruct data; cbn in Hversion; congruence.
  - eauto.
  - exists e. split; [done|]. left. destruct data; cbn in Hapis; congruence.
Qed.
End Root.

Lemma non_object_root_rejected_witness :
  exists e,
    grab_all (transport := @SwaggerFileParser_parser Sample.formatter)
      (resolver := Sample.utils) Sample.local_parser
      (Sample.world_of (JList [JStr "apis"; JStr "apiVersion"]))
    = (Raise e,
       snd (SwaggerFileParser.get_api_docs Sample.local_parser
              (Sample.world_of (JList [JStr "apis"; JStr "apiVersion"])))) /\
    (e = TypeError \/
     e = PrinterError "No apis information found in api-docs" \/
     e = PrinterError "No api version found in api-docs").
Proof.
  apply (non_object_root_rejected
           (transport := @SwaggerFileParser_parser Sample.formatter)
           (resolver := Sample.utils) Sample.local_parser
           (JList [JStr "apis"; JStr "apiVersion"])
           (Sample.world_of (JList [JStr "apis"; JStr "apiVersion"])) _);
    [reflexivity | discriminate].
Defined.

(** An array that holds the two words passes both checks and fails at the
    subscript. *)
Example array_root_passes_checks :
  fst (grab_all (transport := @SwaggerFileParser_parser Sample.formatter)
         (resolver := Sample.utils) Sample.local_parser
         (Sample.world_of (JList [JStr "apis"; JStr "apiVersion"])))
  = Raise TypeError.
Proof. reflexivity. Qed.
